(** * Poverty explorer: the MPI weighting-and-scoring engine

    A shallow embedding of [models/mpi.py], [models/cells.py] and
    [models/enhanced_mpi.py], with the properties of the engine stated and
    proved over it.

    Numbers.  Python [float]s are embedded as exact rationals [Q]: the
    arithmetic of the engine ([+], [*], [/], comparisons, [min]/[max]) is
    taken without rounding, and equality of numbers is [Qeq] ([==]).
    Python [int]s are [Z] (or [nat] for lengths).  Properties are stated
    over [Q] in a form that rounding preserves: orders that are not strict,
    bounds with the tolerance [1e-9], identities between values the code
    copies or computes once, the flow of the data and the errors.  Module
    [F64] has the weight expressions and the scoring loop once more in
    IEEE 754 binary64, for what the rounding itself decides.

    Errors.  Every Python exception the engine can raise is a constructor
    of [exn]; a function that can raise returns a [result]. *)

From Stdlib Require Import QArith Qminmax Qabs Qround ZArith List String Bool Lia Lqa.
From Stdlib Require PrimFloat FloatOps SpecFloat.
Import ListNotations.

Local Open Scope Q_scope.
Local Open Scope string_scope.

(** ** Python values, exceptions and dictionaries *)

Module Py.

(** The exceptions of the engine.
    - [RangeViolation f v]: [ValueError(f"{f} must be between 0 and 1, got {v}")];
    - [ClimateRequired]: [ValueError("Climate data required to calculate weights")];
    - [InvalidLatitude], [InvalidLongitude]: the two [ValueError]s of
      [GeographicCell.__post_init__];
    - [AttributeError n]: [getattr(obj, n)] on a name [n] that is not a
      field of [obj].  For most such names Python raises [AttributeError]
      at the [getattr]; for the few that every object answers with a value
      that is not a number (['__doc__'], ['__class__'], ...) it raises
      [TypeError] one step later, at [weight * value].  Both ways the call
      does not return, and both are this constructor;
    - [KeyError k]: [d[k]] on a missing key;
    - [ZeroDivisionError]: [x / 0];
    - [NanResult]: [np.mean([])], which yields [nan] (kept apart from
      every number). *)
Inductive exn : Type :=
| RangeViolation (field_name : string) (value : Q)
| ClimateRequired
| InvalidLatitude (lat : Q)
| InvalidLongitude (lon : Q)
| AttributeError (name : string)
| KeyError (key : string)
| ZeroDivisionError
| NanResult.

Inductive result (A : Type) : Type :=
| Ok (a : A)
| Raise (e : exn).
Arguments Ok {A} a.
Arguments Raise {A} e.

Definition bind {A B : Type} (c : result A) (k : A -> result B) : result B :=
  match c with
  | Ok a => k a
  | Raise e => Raise e
  end.

(** [is_range_violation e] recognises the range error of a value object. *)
Definition is_range_violation (e : exn) : bool :=
  match e with
  | RangeViolation _ _ => true
  | _ => false
  end.

(** A [Dict[str, float]]: insertion-ordered list of items. *)
Definition dict : Type := list (string * Q).

(** [d[k]] *)
Fixpoint getitem (d : dict) (k : string) : result Q :=
  match d with
  | [] => Raise (KeyError k)
  | (k', v) :: rest => if String.eqb k k' then Ok v else getitem rest k
  end.

Definition keys (d : dict) : list string := map fst d.
Definition values (d : dict) : list Q := map snd d.

(** [sum(xs)] over numbers, starting from 0. *)
Definition sum (xs : list Q) : Q := fold_left Qplus xs 0.

(** [x / y] on floats. *)
Definition truediv (x y : Q) : result Q :=
  if Qeq_bool y 0 then Raise ZeroDivisionError else Ok (x / y).

(** [{k: v/total for k, v in d.items()}] *)
Fixpoint div_items (d : dict) (total : Q) : result dict :=
  match d with
  | [] => Ok []
  | (k, v) :: rest =>
      bind (truediv v total) (fun q =>
      bind (div_items rest total) (fun rest' =>
      Ok ((k, q) :: rest')))
  end.

(** [np.mean(xs)] *)
Definition np_mean (xs : list Q) : result Q :=
  match xs with
  | [] => Raise NanResult
  | _ => Ok (sum xs / inject_Z (Z.of_nat (List.length xs)))
  end.

(** [np.clip(x, lo, hi)] *)
Definition np_clip (x lo hi : Q) : Q := Qmin (Qmax x lo) hi.

(** [d[k] = v]: replaces the value of an existing key in place, appends a
    new key at the end. *)
Fixpoint setitem (d : dict) (k : string) (v : Q) : dict :=
  match d with
  | [] => [(k, v)]
  | (k', v') :: rest =>
      if String.eqb k k' then (k', v) :: rest else (k', v') :: setitem rest k v
  end.

(** [d[k] += x] *)
Definition iadd (d : dict) (k : string) (x : Q) : result dict :=
  bind (getitem d k) (fun v => Ok (setitem d k (v + x))).

(** [x > y] *)
Definition gt (x y : Q) : bool := negb (Qle_bool x y).

(** Truthiness of a [float]: only [0.0] is falsy. *)
Definition truthy (x : Q) : bool := negb (Qeq_bool x 0).

(** [0 <= value <= 1] *)
Definition in_unit (value : Q) : bool := Qle_bool 0 value && Qle_bool value 1.

End Py.

Import Py.

Notation "x <- c ;; k" := (Py.bind c (fun x => k))
  (at level 61, c at next level, right associativity).

(** ** [models/mpi.py] *)

Module Mpi.

(** [DeprivationScore]: the ten indicators of the standard MPI. *)
Record DeprivationScore : Type := mkDeprivationScore {
  nutrition : Q;
  child_mortality : Q;
  years_schooling : Q;
  school_attendance : Q;
  electricity : Q;
  sanitation : Q;
  drinking_water : Q;
  flooring : Q;
  cooking_fuel : Q;
  assets : Q
}.

(** [self.__dict__.items()], in field order. *)
Definition dict_items (d : DeprivationScore) : Py.dict :=
  [ ("nutrition", nutrition d);
    ("child_mortality", child_mortality d);
    ("years_schooling", years_schooling d);
    ("school_attendance", school_attendance d);
    ("electricity", electricity d);
    ("sanitation", sanitation d);
    ("drinking_water", drinking_water d);
    ("flooring", flooring d);
    ("cooking_fuel", cooking_fuel d);
    ("assets", assets d) ].

(** The loop of [__post_init__]: the first value outside [0,1] raises. *)
Fixpoint validate (items : Py.dict) : result unit :=
  match items with
  | [] => Ok tt
  | (field_name, value) :: rest =>
      if negb (in_unit value) then Raise (RangeViolation field_name value)
      else validate rest
  end.

Definition post_init (d : DeprivationScore) : result unit :=
  validate (dict_items d).

(** [DeprivationScore(nutrition=..., ...)]: the generated [__init__]
    stores the fields and calls [__post_init__]. *)
Definition new_DeprivationScore
    (nutrition child_mortality years_schooling school_attendance
     electricity sanitation drinking_water flooring cooking_fuel assets : Q)
  : result DeprivationScore :=
  let self := mkDeprivationScore nutrition child_mortality years_schooling
                school_attendance electricity sanitation drinking_water
                flooring cooking_fuel assets in
  _ <- post_init self ;;
  Ok self.

(** [getattr(deprivations, indicator)]: a name that is not one of the ten
    fields has no numeric attribute behind it, and the iteration of the
    scoring loop that reads it raises ([AttributeError], or [TypeError] at
    the product; see [Py.exn]). *)
Definition getattr (d : DeprivationScore) (indicator : string) : result Q :=
  match getitem (dict_items d) indicator with
  | Ok v => Ok v
  | Raise _ => Raise (AttributeError indicator)
  end.

Record HouseholdData : Type := mkHouseholdData {
  household_id : string;
  cell_id : string;
  deprivations : DeprivationScore;
  household_size : Z;
  num_children : option Z;
  num_elderly : option Z
}.

Definition STANDARD_WEIGHTS : Py.dict :=
  [ ("nutrition", 1 / 6);
    ("child_mortality", 1 / 6);
    ("years_schooling", 1 / 6);
    ("school_attendance", 1 / 6);
    ("electricity", 1 / 18);
    ("sanitation", 1 / 18);
    ("drinking_water", 1 / 18);
    ("flooring", 1 / 18);
    ("cooking_fuel", 1 / 18);
    ("assets", 1 / 18) ].

Definition POVERTY_CUTOFF : Q := 0.33.

(** The accumulation loop of [calculate_deprivation_score]. *)
Fixpoint score_loop (d : DeprivationScore) (items : Py.dict) (score : Q)
  : result Q :=
  match items with
  | [] => Ok score
  | (indicator, weight) :: rest =>
      deprivation_value <- getattr d indicator ;;
      score_loop d rest (score + weight * deprivation_value)
  end.

Definition calculate_deprivation_score
    (d : DeprivationScore) (weights : option Py.dict) : result Q :=
  let weights := match weights with
                 | None => STANDARD_WEIGHTS
                 | Some w => w
                 end in
  score_loop d weights 0.

Definition is_poor (deprivation_score : Q) (cutoff : option Q) : bool :=
  let cutoff := match cutoff with
                | None => POVERTY_CUTOFF
                | Some c => c
                end in
  Qle_bool cutoff deprivation_score.

Definition calculate_intensity (deprivation_score : Q) (cutoff : option Q) : Q :=
  let cutoff := match cutoff with
                | None => POVERTY_CUTOFF
                | Some c => c
                end in
  if Qle_bool cutoff deprivation_score then deprivation_score else 0.

(** The dictionary returned by [calculate_household_mpi]. *)
Record ScoreResult : Type := mkScoreResult {
  sr_deprivation_score : Q;
  sr_is_poor : bool;
  sr_intensity : Q
}.

Definition calculate_household_mpi
    (household : HouseholdData) (weights : option Py.dict) (cutoff : option Q)
  : result ScoreResult :=
  score <- calculate_deprivation_score (deprivations household) weights ;;
  Ok (mkScoreResult score (is_poor score cutoff) (calculate_intensity score cutoff)).

(** The dictionary returned by [calculate_population_mpi]; the early
    return for an empty population has no ['avg_deprivation_score']. *)
Record PopulationResult : Type := mkPopulationResult {
  MPI : Q;
  headcount_ratio : Q;
  intensity : Q;
  num_poor : Z;
  total_population : Z;
  avg_deprivation_score : option Q
}.

(** The list comprehension [[calculate_household_mpi(hh, ...) for hh in households]]. *)
Fixpoint household_results
    (households : list HouseholdData) (weights : option Py.dict)
    (cutoff : option Q) : result (list ScoreResult) :=
  match households with
  | [] => Ok []
  | hh :: rest =>
      r <- calculate_household_mpi hh weights cutoff ;;
      rs <- household_results rest weights cutoff ;;
      Ok (r :: rs)
  end.

(** [sum(1 for r in results if r['is_poor'])] *)
Definition count_poor (results : list ScoreResult) : Z :=
  fold_left (fun acc r => if sr_is_poor r then (acc + 1)%Z else acc) results 0%Z.

Definition calculate_population_mpi
    (households : list HouseholdData) (weights : option Py.dict)
    (cutoff : option Q) : result PopulationResult :=
  match households with
  | [] => Ok (mkPopulationResult 0 0 0 0 0 None)
  | _ =>
      results <- household_results households weights cutoff ;;
      let num_poor := count_poor results in
      let total := Z.of_nat (List.length households) in
      headcount_ratio <-
        (if (0 <? total)%Z then truediv (inject_Z num_poor) (inject_Z total)
         else Ok 0) ;;
      avg_intensity <-
        (if (0 <? num_poor)%Z
         then np_mean (map sr_intensity (filter sr_is_poor results))
         else Ok 0) ;;
      let mpi := headcount_ratio * avg_intensity in
      avg_score <- np_mean (map sr_deprivation_score results) ;;
      Ok (mkPopulationResult mpi headcount_ratio avg_intensity num_poor total
            (Some avg_score))
  end.

(** The ['difference'] entry of [compare_standard_vs_adjusted]. *)
Record Difference : Type := mkDifference {
  diff_deprivation_score : Q;
  classification_changed : bool
}.

Record Comparison : Type := mkComparison {
  standard : ScoreResult;
  adjusted : ScoreResult;
  difference : Difference
}.

Definition compare_standard_vs_adjusted
    (household : HouseholdData) (adjusted_weights : Py.dict)
  : result Comparison :=
  standard <- calculate_household_mpi household None None ;;
  adjusted <- calculate_household_mpi household (Some adjusted_weights) None ;;
  Ok (mkComparison standard adjusted
        (mkDifference
           (sr_deprivation_score adjusted - sr_deprivation_score standard)
           (negb (Bool.eqb (sr_is_poor standard) (sr_is_poor adjusted))))).

End Mpi.

(** ** [models/cells.py] *)

Module Cells.

Record ClimateProfile : Type := mkClimateProfile {
  avg_temp_range : Q;
  heating_degree_days : Q;
  cooling_degree_days : Q;
  annual_precipitation : Q;
  avg_humidity : Q;
  temp_min : Q;
  temp_max : Q
}.

(** The [climate_harshness] property. *)
Definition climate_harshness (self : ClimateProfile) : Q :=
  let comfort_deviation :=
    (Qmax 0 (18 - temp_min self) + Qmax 0 (temp_max self - 24)) / 50 in
  let degree_days_factor :=
    (heating_degree_days self + cooling_degree_days self) / 3000 in
  np_clip (0.5 * comfort_deviation + 0.5 * degree_days_factor) 0 1.

Record ContextFactors : Type := mkContextFactors {
  population_density : Q;
  urban_rural_index : Q;
  infrastructure_index : Q;
  elevation : Q;
  distance_to_services : Q
}.

Record GeographicCell : Type := mkGeographicCell {
  cell_id : string;
  lat : Q;
  lon : Q;
  name : option string;
  climate : option ClimateProfile;
  context : option ContextFactors
}.

(** [GeographicCell.__post_init__] *)
Definition post_init (self : GeographicCell) : result unit :=
  if negb (Qle_bool (-90) (lat self) && Qle_bool (lat self) 90)
  then Raise (InvalidLatitude (lat self))
  else if negb (Qle_bool (-180) (lon self) && Qle_bool (lon self) 180)
  then Raise (InvalidLongitude (lon self))
  else Ok tt.

Definition new_GeographicCell
    (cell_id : string) (lat lon : Q) (name : option string)
    (climate : option ClimateProfile) (context : option ContextFactors)
  : result GeographicCell :=
  let self := mkGeographicCell cell_id lat lon name climate context in
  _ <- post_init self ;;
  Ok self.

(** [has_complete_data] *)
Definition has_complete_data (self : GeographicCell) : bool :=
  match climate self, context self with
  | Some _, Some _ => true
  | _, _ => false
  end.

(** The dictionary literal of [get_climate_weights], before normalization. *)
Definition base_weights (harshness urbanization : Q) : Py.dict :=
  [ ("electricity", 0.08 + (0.12 * harshness));
    ("cooking_fuel", 0.05 + (0.05 * harshness));
    ("sanitation", 0.08 + (0.07 * urbanization));
    ("drinking_water", 0.08 + (0.07 * urbanization));
    ("flooring", 0.08 + (0.07 * harshness));
    ("nutrition", 0.15);
    ("child_mortality", 0.15);
    ("years_schooling", 0.08);
    ("school_attendance", 0.08);
    ("assets", 0.07) ].

(** The last two lines of [get_climate_weights]:
    [total = sum(weights.values()); {k: v/total ...}]. *)
Definition normalize (weights : Py.dict) : result Py.dict :=
  let total := Py.sum (Py.values weights) in
  div_items weights total.

Section Log10.

(** [np.log10], the one operation of the module outside rational
    arithmetic, is taken as given. *)
Variable log10 : Q -> Q.

(** The [urbanization_level] property. *)
Definition urbanization_level (self : ContextFactors) : Q :=
  let density_factor :=
    np_clip (log10 (Qmax 1 (population_density self)) / 4) 0 1 in
  0.5 * density_factor + 0.5 * urban_rural_index self.

Definition get_climate_weights (self : GeographicCell) : result Py.dict :=
  match climate self with
  | None => Raise ClimateRequired
  | Some c =>
      let harshness := climate_harshness c in
      let urbanization :=
        match context self with
        | Some x => urbanization_level x
        | None => 0.5
        end in
      normalize (base_weights harshness urbanization)
  end.

End Log10.

End Cells.

(** ** [models/enhanced_mpi.py] *)

Module EnhancedMpi.

Record EnhancedHousingDeprivation : Type := mkEnhancedHousingDeprivation {
  structure_quality : Q;
  tenure_security : Q;
  cost_burden : Q
}.

Definition housing_composite_score (self : EnhancedHousingDeprivation) : Q :=
  0.4 * structure_quality self + 0.3 * tenure_security self
  + 0.3 * cost_burden self.

Record DigitalDeprivation : Type := mkDigitalDeprivation {
  no_internet_access : Q;
  no_device : Q;
  digital_illiteracy : Q
}.

Definition digital_composite_score (self : DigitalDeprivation) : Q :=
  (no_internet_access self + no_device self + digital_illiteracy self) / 3.

(** The field [transport_cost_burden] is written [transport_cost_burden_dep]
    here: the name is also that of a property of [EnhancedHouseholdData].
    Likewise each [composite_score] property carries the name of its class. *)
Record TransportDeprivation : Type := mkTransportDeprivation {
  excessive_commute_time : Q;
  transport_cost_burden_dep : Q;
  no_transport_access : Q
}.

Definition transport_composite_score (self : TransportDeprivation) : Q :=
  0.4 * no_transport_access self + 0.3 * excessive_commute_time self
  + 0.3 * transport_cost_burden_dep self.

Record EconomicVulnerability : Type := mkEconomicVulnerability {
  income_volatility : Q;
  no_emergency_savings : Q;
  no_social_protection : Q;
  high_debt_burden : Q
}.

Definition economic_composite_score (self : EconomicVulnerability) : Q :=
  (income_volatility self + no_emergency_savings self
   + no_social_protection self + high_debt_burden self) / 4.

Record EnvironmentalDeprivation : Type := mkEnvironmentalDeprivation {
  poor_air_quality : Q;
  flood_risk : Q;
  heat_exposure : Q;
  toxic_proximity : Q
}.

Definition environment_composite_score (self : EnvironmentalDeprivation) : Q :=
  0.3 * poor_air_quality self + 0.3 * heat_exposure self
  + 0.25 * flood_risk self + 0.15 * toxic_proximity self.

Record EnhancedDeprivationScore : Type := mkEnhancedDeprivationScore {
  nutrition : Q;
  child_mortality : Q;
  years_schooling : Q;
  school_attendance : Q;
  electricity : Q;
  sanitation : Q;
  drinking_water : Q;
  cooking_fuel : Q;
  assets : Q;
  housing : EnhancedHousingDeprivation;
  digital : DigitalDeprivation;
  transport : TransportDeprivation;
  economic_security : EconomicVulnerability;
  environment : EnvironmentalDeprivation
}.

(** The values found in [self.__dict__]: a [float], or one of the five
    sub-vector objects. *)
Inductive attr : Type :=
| AFloat (value : Q)
| AHousing (h : EnhancedHousingDeprivation)
| ADigital (g : DigitalDeprivation)
| ATransport (t : TransportDeprivation)
| AEconomic (e : EconomicVulnerability)
| AEnvironment (v : EnvironmentalDeprivation).

(** [self.__dict__.items()], in field order. *)
Definition dict_items (d : EnhancedDeprivationScore) : list (string * attr) :=
  [ ("nutrition", AFloat (nutrition d));
    ("child_mortality", AFloat (child_mortality d));
    ("years_schooling", AFloat (years_schooling d));
    ("school_attendance", AFloat (school_attendance d));
    ("electricity", AFloat (electricity d));
    ("sanitation", AFloat (sanitation d));
    ("drinking_water", AFloat (drinking_water d));
    ("cooking_fuel", AFloat (cooking_fuel d));
    ("assets", AFloat (assets d));
    ("housing", AHousing (housing d));
    ("digital", ADigital (digital d));
    ("transport", ATransport (transport d));
    ("economic_security", AEconomic (economic_security d));
    ("environment", AEnvironment (environment d)) ].

(** The loop of [__post_init__]:
    [if isinstance(value, float) and not 0 <= value <= 1: raise]. *)
Fixpoint validate (items : list (string * attr)) : result unit :=
  match items with
  | [] => Ok tt
  | (field_name, AFloat value) :: rest =>
      if negb (in_unit value) then Raise (RangeViolation field_name value)
      else validate rest
  | (_, _) :: rest => validate rest
  end.

Definition post_init (d : EnhancedDeprivationScore) : result unit :=
  validate (dict_items d).

(** [EnhancedDeprivationScore(...)]; the five sub-vectors are built
    beforehand by their own constructors, which have no [__post_init__]. *)
Definition new_EnhancedDeprivationScore
    (nutrition child_mortality years_schooling school_attendance
     electricity sanitation drinking_water cooking_fuel assets : Q)
    (housing : EnhancedHousingDeprivation) (digital : DigitalDeprivation)
    (transport : TransportDeprivation)
    (economic_security : EconomicVulnerability)
    (environment : EnvironmentalDeprivation)
  : result EnhancedDeprivationScore :=
  let self := mkEnhancedDeprivationScore nutrition child_mortality
                years_schooling school_attendance electricity sanitation
                drinking_water cooking_fuel assets housing digital transport
                economic_security environment in
  _ <- post_init self ;;
  Ok self.

Definition to_standard_mpi_compatible (self : EnhancedDeprivationScore)
  : Py.dict :=
  [ ("nutrition", nutrition self);
    ("child_mortality", child_mortality self);
    ("years_schooling", years_schooling self);
    ("school_attendance", school_attendance self);
    ("electricity", electricity self);
    ("sanitation", sanitation self);
    ("drinking_water", drinking_water self);
    ("flooring", structure_quality (housing self));
    ("cooking_fuel", cooking_fuel self);
    ("assets", assets self) ].

Record EnhancedHouseholdData : Type := mkEnhancedHouseholdData {
  household_id : string;
  cell_id : string;
  deprivations : EnhancedDeprivationScore;
  household_size : Z;
  num_children : option Z;
  num_elderly : option Z;
  monthly_income : option Q;
  monthly_housing_cost : option Q;
  monthly_transport_cost : option Q;
  tenure_type : option string;
  urban_sprawl_index : option Q;
  local_rental_index : option Q
}.

(** The body shared by the two cost-burden properties, with the
    short-circuit evaluation of [and]:
    [if income and cost and income > 0: return cost / income; return None]. *)
Definition cost_burden_of (income cost : option Q) : result (option Q) :=
  match income with
  | None => Ok None
  | Some i =>
      if truthy i then
        match cost with
        | None => Ok None
        | Some c =>
            if truthy c then
              if gt i 0 then q <- truediv c i ;; Ok (Some q)
              else Ok None
            else Ok None
        end
      else Ok None
  end.

Definition housing_cost_burden (self : EnhancedHouseholdData)
  : result (option Q) :=
  cost_burden_of (monthly_income self) (monthly_housing_cost self).

Definition transport_cost_burden (self : EnhancedHouseholdData)
  : result (option Q) :=
  cost_burden_of (monthly_income self) (monthly_transport_cost self).

Definition ENHANCED_WEIGHTS : Py.dict :=
  [ ("nutrition", 0.075);
    ("child_mortality", 0.075);
    ("years_schooling", 0.075);
    ("school_attendance", 0.075);
    ("electricity", 0.06);
    ("sanitation", 0.06);
    ("drinking_water", 0.06);
    ("cooking_fuel", 0.05);
    ("assets", 0.05);
    ("housing", 0.12);
    ("digital", 0.08);
    ("transport", 0.08);
    ("economic_security", 0.07);
    ("environment", 0.07) ].

Definition POVERTY_CUTOFF : Q := 0.33.

(** A keyword argument declared with the default [= 0.5]. *)
Definition default_half (arg : option Q) : Q :=
  match arg with
  | Some v => v
  | None => 0.5
  end.

Definition get_context_adjusted_weights
    (climate_harshness urbanization : Q)
    (sprawl_index digital_economy_intensity rental_market_tightness : option Q)
  : result Py.dict :=
  let sprawl_index := default_half sprawl_index in
  let digital_economy_intensity := default_half digital_economy_intensity in
  let weights := ENHANCED_WEIGHTS in
  weights <- iadd weights "electricity" (0.04 * climate_harshness) ;;
  weights <- iadd weights "cooking_fuel" (0.02 * climate_harshness) ;;
  weights <- iadd weights "housing" (0.03 * climate_harshness) ;;
  weights <- iadd weights "sanitation" (0.04 * urbanization) ;;
  weights <- iadd weights "drinking_water" (0.04 * urbanization) ;;
  weights <- iadd weights "transport" (0.06 * sprawl_index) ;;
  weights <- iadd weights "digital" (0.05 * digital_economy_intensity) ;;
  let total := Py.sum (Py.values weights) in
  div_items weights total.

Definition calculate_housing_subcomponent_weights
    (climate_harshness rental_market_tightness : Q) : result Py.dict :=
  let structure_weight := 0.40 in
  let tenure_weight := 0.30 in
  let cost_weight := 0.30 in
  let structure_weight := structure_weight + 0.10 * climate_harshness in
  let cost_weight := cost_weight + 0.15 * rental_market_tightness in
  let total := structure_weight + tenure_weight + cost_weight in
  s <- truediv structure_weight total ;;
  t <- truediv tenure_weight total ;;
  c <- truediv cost_weight total ;;
  Ok [ ("structure", s); ("tenure", t); ("cost", c) ].

(** [self.__dict__[name]] *)
Fixpoint lookup_attr (items : list (string * attr)) (name : string)
  : option attr :=
  match items with
  | [] => None
  | (k, a) :: rest => if String.eqb name k then Some a else lookup_attr rest name
  end.

(** [getattr(deprivations, indicator)] as a factor of a product with a
    weight: only a [float] field can be multiplied. *)
Definition getattr (d : EnhancedDeprivationScore) (indicator : string)
  : result Q :=
  match lookup_attr (dict_items d) indicator with
  | Some (AFloat v) => Ok v
  | _ => Raise (AttributeError indicator)
  end.

Definition SIMPLE_INDICATORS : list string :=
  [ "nutrition"; "child_mortality"; "years_schooling"; "school_attendance";
    "electricity"; "sanitation"; "drinking_water"; "cooking_fuel"; "assets" ].

(** The first loop of [calculate_deprivation_score]. *)
Fixpoint simple_loop (d : EnhancedDeprivationScore) (weights : Py.dict)
    (indicators : list string) (score : Q) : result Q :=
  match indicators with
  | [] => Ok score
  | indicator :: rest =>
      w <- getitem weights indicator ;;
      v <- getattr d indicator ;;
      simple_loop d weights rest (score + w * v)
  end.

Definition DEFAULT_HOUSING_WEIGHTS : Py.dict :=
  [ ("structure", 0.4); ("tenure", 0.3); ("cost", 0.3) ].

Definition calculate_deprivation_score
    (d : EnhancedDeprivationScore) (weights housing_weights : option Py.dict)
  : result Q :=
  let weights := match weights with
                 | None => ENHANCED_WEIGHTS
                 | Some w => w
                 end in
  let housing_weights := match housing_weights with
                         | None => DEFAULT_HOUSING_WEIGHTS
                         | Some w => w
                         end in
  score <- simple_loop d weights SIMPLE_INDICATORS 0 ;;
  ws <- getitem housing_weights "structure" ;;
  wt <- getitem housing_weights "tenure" ;;
  wc <- getitem housing_weights "cost" ;;
  let housing_deprivation :=
    ws * structure_quality (housing d) + wt * tenure_security (housing d)
    + wc * cost_burden (housing d) in
  wh <- getitem weights "housing" ;;
  let score := score + wh * housing_deprivation in
  wd <- getitem weights "digital" ;;
  let score := score + wd * digital_composite_score (digital d) in
  wtr <- getitem weights "transport" ;;
  let score := score + wtr * transport_composite_score (transport d) in
  we <- getitem weights "economic_security" ;;
  let score := score + we * economic_composite_score (economic_security d) in
  wv <- getitem weights "environment" ;;
  let score := score + wv * environment_composite_score (environment d) in
  Ok score.

Record ScoreResult : Type := mkScoreResult {
  sr_deprivation_score : Q;
  sr_is_poor : bool;
  sr_intensity : Q
}.

Definition calculate_household_mpi
    (household : EnhancedHouseholdData)
    (weights housing_weights : option Py.dict) (cutoff : option Q)
  : result ScoreResult :=
  score <- calculate_deprivation_score (deprivations household) weights
             housing_weights ;;
  let cutoff := match cutoff with
                | None => POVERTY_CUTOFF
                | Some c => c
                end in
  let is_poor := Qle_bool cutoff score in
  let intensity := if is_poor then score else 0 in
  Ok (mkScoreResult score is_poor intensity).

End EnhancedMpi.

(** ** Vocabulary of the specification *)

Module Spec.

(** The ten core indicators, the field names of [Mpi.DeprivationScore]. *)
Definition INDICATORS : list string :=
  [ "nutrition"; "child_mortality"; "years_schooling"; "school_attendance";
    "electricity"; "sanitation"; "drinking_water"; "flooring";
    "cooking_fuel"; "assets" ].

(** A weight table over the core indicators: every key names one of them. *)
Definition over_indicators (w : Py.dict) : bool :=
  forallb (fun k => existsb (String.eqb k) INDICATORS) (Py.keys w).

(** The [weights] argument of the standard engine is usable: [None]
    (the standard table) or a table over the core indicators. *)
Definition weights_ok (w : option Py.dict) : bool :=
  match w with
  | None => true
  | Some t => over_indicators t
  end.

(** [has_keys ks w]: every key of [ks] is present in [w]. *)
Definition has_keys (ks : list string) (w : Py.dict) : bool :=
  forallb (fun k => existsb (String.eqb k) (Py.keys w)) ks.

(** The fourteen top-level entries of an enhanced weight table. *)
Definition ENHANCED_KEYS : list string :=
  [ "nutrition"; "child_mortality"; "years_schooling"; "school_attendance";
    "electricity"; "sanitation"; "drinking_water"; "cooking_fuel"; "assets";
    "housing"; "digital"; "transport"; "economic_security"; "environment" ].

Definition HOUSING_KEYS : list string := [ "structure"; "tenure"; "cost" ].

(** The arguments of the enhanced engine are usable: absent, or tables
    holding every key the engine reads. *)
Definition enhanced_weights_ok (weights housing_weights : option Py.dict)
  : bool :=
  match weights with
  | None => true
  | Some w => has_keys ENHANCED_KEYS w
  end
  &&
  match housing_weights with
  | None => true
  | Some hw => has_keys HOUSING_KEYS hw
  end.

(** Two tables with the same keys in the same order and equal numbers. *)
Definition same_table (a b : Py.dict) : Prop :=
  Forall2 (fun x y => fst x = fst y /\ snd x == snd y) a b.

(** [x] lies in the closed unit interval. *)
Definition unit_interval (x : Q) : Prop := 0 <= x <= 1.

(** An optional context scalar is valid when it is absent or in [0,1]. *)
Definition opt_unit_interval (x : option Q) : Prop :=
  match x with
  | None => True
  | Some v => unit_interval v
  end.

(** The tolerance of the normalization property. *)
Definition TOLERANCE : Q := 1e-9.

Definition sums_to_one (w : Py.dict) : Prop :=
  Qabs (Py.sum (Py.values w) - 1) <= TOLERANCE.

(** The enhanced table after the additive context adjustments and before
    renormalization, as the specification writes it. *)
Definition enhanced_adjusted_table (h u sprawl digital : Q) : Py.dict :=
  [ ("nutrition", 0.075);
    ("child_mortality", 0.075);
    ("years_schooling", 0.075);
    ("school_attendance", 0.075);
    ("electricity", 0.06 + 0.04 * h);
    ("sanitation", 0.06 + 0.04 * u);
    ("drinking_water", 0.06 + 0.04 * u);
    ("cooking_fuel", 0.05 + 0.02 * h);
    ("assets", 0.05);
    ("housing", 0.12 + 0.03 * h);
    ("digital", 0.08 + 0.05 * digital);
    ("transport", 0.08 + 0.06 * sprawl);
    ("economic_security", 0.07);
    ("environment", 0.07) ].

(** What a cost-burden property owes for given income and cost: the ratio
    when both are present, the income is strictly positive and the cost is
    not zero; [None] otherwise; never an exception. *)
Definition burden_spec (income cost : option Q) (burden : result (option Q))
  : Prop :=
  match income, cost with
  | Some i, Some c =>
      (0 < i /\ ~ c == 0 -> burden = Ok (Some (c / i)))
      /\ (i <= 0 \/ c == 0 -> burden = Ok None)
  | _, _ => burden = Ok None
  end.

(** Every scalar of an enhanced deprivation vector: the nine top-level
    indicators and the components of the five composite sub-vectors. *)
Definition scalar_components (d : EnhancedMpi.EnhancedDeprivationScore)
  : list Q :=
  [ EnhancedMpi.nutrition d; EnhancedMpi.child_mortality d;
    EnhancedMpi.years_schooling d; EnhancedMpi.school_attendance d;
    EnhancedMpi.electricity d; EnhancedMpi.sanitation d;
    EnhancedMpi.drinking_water d; EnhancedMpi.cooking_fuel d;
    EnhancedMpi.assets d;
    EnhancedMpi.structure_quality (EnhancedMpi.housing d);
    EnhancedMpi.tenure_security (EnhancedMpi.housing d);
    EnhancedMpi.cost_burden (EnhancedMpi.housing d);
    EnhancedMpi.no_internet_access (EnhancedMpi.digital d);
    EnhancedMpi.no_device (EnhancedMpi.digital d);
    EnhancedMpi.digital_illiteracy (EnhancedMpi.digital d);
    EnhancedMpi.excessive_commute_time (EnhancedMpi.transport d);
    EnhancedMpi.transport_cost_burden_dep (EnhancedMpi.transport d);
    EnhancedMpi.no_transport_access (EnhancedMpi.transport d);
    EnhancedMpi.income_volatility (EnhancedMpi.economic_security d);
    EnhancedMpi.no_emergency_savings (EnhancedMpi.economic_security d);
    EnhancedMpi.no_social_protection (EnhancedMpi.economic_security d);
    EnhancedMpi.high_debt_burden (EnhancedMpi.economic_security d);
    EnhancedMpi.poor_air_quality (EnhancedMpi.environment d);
    EnhancedMpi.flood_risk (EnhancedMpi.environment d);
    EnhancedMpi.heat_exposure (EnhancedMpi.environment d);
    EnhancedMpi.toxic_proximity (EnhancedMpi.environment d) ].

(** The nine top-level scalar indicators alone. *)
Definition top_level_scalars (d : EnhancedMpi.EnhancedDeprivationScore)
  : list Q := firstn 9 (scalar_components d).

End Spec.

Import Spec.

(** ** Fixtures of the repository's test scripts *)

Module Examples.

(** A rational stand-in for [np.log10], used only to run the examples:
    [floor(log2 x) * 0.30103]. *)
Definition log10_approx (x : Q) : Q :=
  inject_Z (Z.log2 (Qfloor x)) * 0.30103.

(** [test_mpi.py]: the harsh inland cell and its household. *)
Definition harsh_climate : Cells.ClimateProfile :=
  Cells.mkClimateProfile 15 100 800 800 70 10 38.

Definition mild_climate : Cells.ClimateProfile :=
  Cells.mkClimateProfile 8 50 200 1000 75 15 28.

Definition urban_context : Cells.ContextFactors :=
  Cells.mkContextFactors 3000 0.8 0.6 100 5.

Definition harsh_cell : Cells.GeographicCell :=
  Cells.mkGeographicCell "TEST_HARSH" (-29.9) 30.9 (Some "Inland Urban Ward")
    (Some harsh_climate) (Some urban_context).

(** The same cell with no [ContextFactors], and one with no [ClimateProfile]. *)
Definition cell_without_context : Cells.GeographicCell :=
  Cells.mkGeographicCell "TEST_HARSH" (-29.9) 30.9 None (Some harsh_climate) None.


Definition hh001 : Mpi.HouseholdData :=
  Mpi.mkHouseholdData "HH001" "TEST_HARSH"
    (Mpi.mkDeprivationScore 0 0 0 0 1 1 0 1 1 0.5) 4 (Some 2%Z) None.

(** Scenario B: every core indicator deprived. *)
Definition all_deprived : Mpi.HouseholdData :=
  Mpi.mkHouseholdData "HH_B" "TEST_HARSH"
    (Mpi.mkDeprivationScore 1 1 1 1 1 1 1 1 1 1) 4 None None.

Definition not_deprived : Mpi.HouseholdData :=
  Mpi.mkHouseholdData "HH_A" "TEST_HARSH"
    (Mpi.mkDeprivationScore 0 0 0 0 0 0 0 0 0 0) 4 None None.

(** A regime that weighs four living-standards indicators only. *)
Definition living_standards_table : Py.dict :=
  [ ("nutrition", 0); ("child_mortality", 0); ("years_schooling", 0);
    ("school_attendance", 0); ("electricity", 0.25); ("sanitation", 0.25);
    ("drinking_water", 0); ("flooring", 0.25); ("cooking_fuel", 0.25);
    ("assets", 0) ].

(** [test_enhanced_mpi.py]: the renter with a high rent burden. *)
Definition renter_high_cost : EnhancedMpi.EnhancedHouseholdData :=
  EnhancedMpi.mkEnhancedHouseholdData "RENTER_HIGH" "TEST"
    (EnhancedMpi.mkEnhancedDeprivationScore 0 0 0 0 0 0 0 0 0
       (EnhancedMpi.mkEnhancedHousingDeprivation 0.2 0.3 0.9)
       (EnhancedMpi.mkDigitalDeprivation 0 0 0)
       (EnhancedMpi.mkTransportDeprivation 0 0.3 0)
       (EnhancedMpi.mkEconomicVulnerability 0.3 0.8 0 0.6)
       (EnhancedMpi.mkEnvironmentalDeprivation 0 0 0 0))
    3 None None (Some 6000) (Some 3000) (Some 900) (Some "secure_rental")
    None (Some 1.5).

End Examples.

(** ** Callers of the engine: [app.py] and [test_enhanced_mpi.py] *)

Module Callers.



(** [[d[k] for k in ks]] *)
Fixpoint getitems (d : Py.dict) (ks : list string) : result (list Q) :=
  match ks with
  | [] => Ok []
  | k :: rest =>
      v <- getitem d k ;;
      vs <- getitems d rest ;;
      Ok (v :: vs)
  end.

(** [app.py], the weight table of the cell view:
    [adjusted_weights = cell.get_climate_weights()]
    [[adjusted_weights[k] for k in standard_weights.keys()]]. *)
Definition adjusted_column (log10 : Q -> Q) (cell : Cells.GeographicCell)
  : result (list Q) :=
  adjusted_weights <- Cells.get_climate_weights log10 cell ;;
  getitems adjusted_weights (Py.keys Mpi.STANDARD_WEIGHTS).

(** [test_enhanced_mpi.py]: [DeprivationScore] called with the dictionary
    [household.deprivations.to_standard_mpi_compatible()] unpacked as keyword
    arguments; each field of the dataclass is bound to the entry of its
    name. *)
Definition standard_deprivations (e : EnhancedMpi.EnhancedDeprivationScore)
  : result Mpi.DeprivationScore :=
  let kw := EnhancedMpi.to_standard_mpi_compatible e in
  nutrition <- getitem kw "nutrition" ;;
  child_mortality <- getitem kw "child_mortality" ;;
  years_schooling <- getitem kw "years_schooling" ;;
  school_attendance <- getitem kw "school_attendance" ;;
  electricity <- getitem kw "electricity" ;;
  sanitation <- getitem kw "sanitation" ;;
  drinking_water <- getitem kw "drinking_water" ;;
  flooring <- getitem kw "flooring" ;;
  cooking_fuel <- getitem kw "cooking_fuel" ;;
  assets <- getitem kw "assets" ;;
  Mpi.new_DeprivationScore nutrition child_mortality years_schooling
    school_attendance electricity sanitation drinking_water flooring
    cooking_fuel assets.


End Callers.

(** ** Further vocabulary *)

Module Vocab.

(** The table the standard engine scores with. *)
Definition table_of (weights : option Py.dict) : Py.dict :=
  match weights with
  | None => Mpi.STANDARD_WEIGHTS
  | Some w => w
  end.


(** No entry of a weight table is negative. *)
Definition nonneg_table (w : Py.dict) : Prop :=
  Forall (fun kv => 0 <= snd kv) w.

(** Componentwise order on standard deprivation vectors. *)
Definition vector_le (d d' : Mpi.DeprivationScore) : Prop :=
  Forall2 (fun a b => fst a = fst b /\ snd a <= snd b)
    (Mpi.dict_items d) (Mpi.dict_items d').

(** Every scalar of an enhanced vector, sub-vectors included, lies in [0,1]. *)
Definition valid_enhanced (d : EnhancedMpi.EnhancedDeprivationScore) : Prop :=
  Forall unit_interval (scalar_components d).

(** The fourteen dimension scores of an enhanced vector: the nine simple
    indicators and the [composite_score] of each of the five sub-vectors. *)
Definition dimension_scores (d : EnhancedMpi.EnhancedDeprivationScore)
  : Py.dict :=
  [ ("nutrition", EnhancedMpi.nutrition d);
    ("child_mortality", EnhancedMpi.child_mortality d);
    ("years_schooling", EnhancedMpi.years_schooling d);
    ("school_attendance", EnhancedMpi.school_attendance d);
    ("electricity", EnhancedMpi.electricity d);
    ("sanitation", EnhancedMpi.sanitation d);
    ("drinking_water", EnhancedMpi.drinking_water d);
    ("cooking_fuel", EnhancedMpi.cooking_fuel d);
    ("assets", EnhancedMpi.assets d);
    ("housing", EnhancedMpi.housing_composite_score (EnhancedMpi.housing d));
    ("digital", EnhancedMpi.digital_composite_score (EnhancedMpi.digital d));
    ("transport",
     EnhancedMpi.transport_composite_score (EnhancedMpi.transport d));
    ("economic_security",
     EnhancedMpi.economic_composite_score (EnhancedMpi.economic_security d));
    ("environment",
     EnhancedMpi.environment_composite_score (EnhancedMpi.environment d)) ].







End Vocab.

Import Vocab.

(** ** The two scoring kernels in binary64 *)

Module F64.

(** The exact-rational embedding above decides everything that depends on
    the order and structure of the computation.  What depends on the
    rounding of each operation is decided here: the weight expressions of
    [get_climate_weights] and the accumulation loop of
    [calculate_deprivation_score] once more, over IEEE 754 binary64 numbers
    ([PrimFloat.float]), every [+], [*] and comparison being the rounded
    machine operation of a Python [float]. *)

Import PrimFloat.
#[local] Set Warnings "-inexact-float".
Local Open Scope float_scope.

Definition dict : Type := list (string * float).

(** [d[k]] *)
Fixpoint getitem (d : dict) (k : string) : result float :=
  match d with
  | [] => Raise (KeyError k)
  | (k', v) :: rest => if String.eqb k k' then Ok v else getitem rest k
  end.

Definition values (d : dict) : list float := map snd d.

(** The [weights] dictionary of [get_climate_weights] before it is
    normalized. *)
Definition base_weights (harshness urbanization : float) : dict :=
  [ ("electricity", 0.08 + (0.12 * harshness));
    ("cooking_fuel", 0.05 + (0.05 * harshness));
    ("sanitation", 0.08 + (0.07 * urbanization));
    ("drinking_water", 0.08 + (0.07 * urbanization));
    ("flooring", 0.08 + (0.07 * harshness));
    ("nutrition", 0.15);
    ("child_mortality", 0.15);
    ("years_schooling", 0.08);
    ("school_attendance", 0.08);
    ("assets", 0.07) ].

(** [DeprivationScore] with [float] fields. *)
Record DeprivationScore : Type := mkDeprivationScore {
  nutrition : float;
  child_mortality : float;
  years_schooling : float;
  school_attendance : float;
  electricity : float;
  sanitation : float;
  drinking_water : float;
  flooring : float;
  cooking_fuel : float;
  assets : float
}.

Definition dict_items (d : DeprivationScore) : dict :=
  [ ("nutrition", nutrition d);
    ("child_mortality", child_mortality d);
    ("years_schooling", years_schooling d);
    ("school_attendance", school_attendance d);
    ("electricity", electricity d);
    ("sanitation", sanitation d);
    ("drinking_water", drinking_water d);
    ("flooring", flooring d);
    ("cooking_fuel", cooking_fuel d);
    ("assets", assets d) ].

(** [getattr(deprivations, indicator)] on a field name. *)
Definition getattr (d : DeprivationScore) (indicator : string) : result float :=
  match getitem (dict_items d) indicator with
  | Ok v => Ok v
  | Raise _ => Raise (AttributeError indicator)
  end.

Definition STANDARD_WEIGHTS : dict :=
  [ ("nutrition", 1 / 6);
    ("child_mortality", 1 / 6);
    ("years_schooling", 1 / 6);
    ("school_attendance", 1 / 6);
    ("electricity", 1 / 18);
    ("sanitation", 1 / 18);
    ("drinking_water", 1 / 18);
    ("flooring", 1 / 18);
    ("cooking_fuel", 1 / 18);
    ("assets", 1 / 18) ].

Definition POVERTY_CUTOFF : float := 0.33.

(** The accumulation loop of [calculate_deprivation_score]:
    [score += weight * deprivation_value], from [score = 0.0]. *)
Fixpoint score_loop (d : DeprivationScore) (items : dict) (score : float)
  : result float :=
  match items with
  | [] => Ok score
  | (indicator, weight) :: rest =>
      deprivation_value <- getattr d indicator ;;
      score_loop d rest (score + weight * deprivation_value)
  end.

Definition calculate_deprivation_score
    (d : DeprivationScore) (weights : option dict) : result float :=
  let weights := match weights with
                 | None => STANDARD_WEIGHTS
                 | Some w => w
                 end in
  score_loop d weights 0.

(** [deprivation_score >= cutoff] *)
Definition is_poor (deprivation_score : float) (cutoff : option float) : bool :=
  let cutoff := match cutoff with
                | None => POVERTY_CUTOFF
                | Some c => c
                end in
  cutoff <=? deprivation_score.

Definition calculate_intensity (deprivation_score : float)
    (cutoff : option float) : float :=
  let cutoff := match cutoff with
                | None => POVERTY_CUTOFF
                | Some c => c
                end in
  if cutoff <=? deprivation_score then deprivation_score else 0.

Record ScoreResult : Type := mkScoreResult {
  sr_deprivation_score : float;
  sr_is_poor : bool;
  sr_intensity : float
}.

(** [calculate_household_mpi], on the [deprivations] of the household (the
    only field it reads). *)
Definition calculate_household_mpi
    (deprivations : DeprivationScore) (weights : option dict)
    (cutoff : option float) : result ScoreResult :=
  score <- calculate_deprivation_score deprivations weights ;;
  Ok (mkScoreResult score (is_poor score cutoff) (calculate_intensity score cutoff)).

(** The rational number a binary64 number stands for ([None] for an
    infinity or a NaN). *)
Definition exact (x : float) : option Q :=
  match FloatOps.Prim2SF x with
  | SpecFloat.S754_zero _ => Some 0%Q
  | SpecFloat.S754_finite s m e =>
      let q := (inject_Z (Zpos m) * Qpower 2 e)%Q in
      Some (if s then (- q)%Q else q)
  | _ => None
  end.

(** The sum of the numbers of a list, without rounding. *)
Fixpoint exact_sum (xs : list float) : option Q :=
  match xs with
  | [] => Some 0%Q
  | x :: rest =>
      match exact x, exact_sum rest with
      | Some q, Some s => Some (q + s)%Q
      | _, _ => None
      end
  end.


(** Scenario B: every core indicator deprived. *)
Definition all_deprived : DeprivationScore :=
  mkDeprivationScore 1 1 1 1 1 1 1 1 1 1.


(** A table over three indicators whose entries cancel: they sum to 1
    without rounding, and to 0 in the loop. *)
Definition cancelling_table : dict :=
  [ ("nutrition", 1e17); ("child_mortality", 1); ("years_schooling", -1e17) ].


End F64.

(** * Properties *)

(** ** Lists of numbers and dictionaries *)

Lemma fold_left_Qplus_acc (xs : list Q) (a : Q) :
  fold_left Qplus xs a == a + fold_left Qplus xs 0.
Proof.
  revert a; induction xs as [|x xs IH]; intro a; simpl.
  - ring.
  - rewrite IH, (IH (0 + x)). ring.
Qed.

Lemma sum_cons (x : Q) (xs : list Q) : Py.sum (x :: xs) == x + Py.sum xs.
Proof.
  unfold Py.sum; simpl. rewrite fold_left_Qplus_acc. ring.
Qed.


Lemma truediv_ok (x y : Q) : ~ y == 0 -> Py.truediv x y = Ok (x / y).
Proof.
  intro Hy. unfold Py.truediv.
  destruct (Qeq_bool y 0) eqn:E; [apply Qeq_bool_iff in E; contradiction | reflexivity].
Qed.

Lemma div_items_ok (d : Py.dict) (total : Q) :
  ~ total == 0 ->
  exists d', Py.div_items d total = Ok d'
             /\ same_table d' (map (fun kv => (fst kv, snd kv / total)) d)
             /\ Py.sum (Py.values d') == Py.sum (Py.values d) / total.
Proof.
  intro Ht. induction d as [|[k v] d IH]; simpl.
  - exists []. split; [reflexivity | split].
    + constructor.
    + unfold Py.sum; simpl; field; exact Ht.
  - destruct IH as (d' & E & T & S).
    rewrite (truediv_ok v total Ht); simpl. rewrite E; simpl.
    exists ((k, v / total) :: d'). split; [reflexivity | split].
    + constructor; [split; reflexivity | exact T].
    + unfold Py.values in *; simpl. rewrite !sum_cons, S. field; exact Ht.
Qed.

Lemma normalized_sum (d d' : Py.dict) :
  ~ Py.sum (Py.values d) == 0 ->
  Py.div_items d (Py.sum (Py.values d)) = Ok d' ->
  Py.sum (Py.values d') == 1.
Proof.
  intros Ht E. destruct (div_items_ok d _ Ht) as (d2 & E2 & _ & S).
  rewrite E in E2; injection E2 as <-. rewrite S. field; exact Ht.
Qed.

Lemma sums_to_one_exact (w : Py.dict) : Py.sum (Py.values w) == 1 -> sums_to_one w.
Proof.
  intro H. unfold sums_to_one. rewrite H. vm_compute. discriminate.
Qed.

Lemma getitem_present (w : Py.dict) (k : string) :
  existsb (String.eqb k) (Py.keys w) = true -> exists v, Py.getitem w k = Ok v.
Proof.
  induction w as [|[k' v'] w IH]; simpl; [discriminate|].
  destruct (String.eqb k k'); simpl; eauto.
Qed.

Lemma has_keys_getitem (ks : list string) (w : Py.dict) (k : string) :
  has_keys ks w = true -> In k ks -> exists v, Py.getitem w k = Ok v.
Proof.
  unfold has_keys; intros H Hin.
  rewrite forallb_forall in H. apply getitem_present, H, Hin.
Qed.

(** ** The standard engine *)

Lemma std_getattr_total (d : Mpi.DeprivationScore) (k : string) :
  existsb (String.eqb k) INDICATORS = true ->
  exists v, Mpi.getattr d k = Ok v /\ In (k, v) (Mpi.dict_items d).
Proof.
  intro H. apply existsb_exists in H. destruct H as (x & Hin & Heq).
  apply String.eqb_eq in Heq; subst x.
  unfold INDICATORS in Hin; simpl in Hin.
  repeat (destruct Hin as [<- | Hin];
          [eexists; split; [reflexivity | simpl; tauto] | ]).
  contradiction.
Qed.

Lemma std_score_loop_total (d : Mpi.DeprivationScore) (w : Py.dict) (acc : Q) :
  over_indicators w = true -> exists s, Mpi.score_loop d w acc = Ok s.
Proof.
  revert acc; induction w as [|[k x] w IH]; intros acc H; simpl.
  - eauto.
  - unfold over_indicators in H; simpl in H.
    apply andb_true_iff in H; destruct H as [Hk Hw].
    destruct (std_getattr_total d k Hk) as (v & -> & _); simpl.
    apply IH, Hw.
Qed.

Lemma standard_weights_over_indicators : over_indicators Mpi.STANDARD_WEIGHTS = true.
Proof. reflexivity. Qed.

Lemma std_score_total (d : Mpi.DeprivationScore) (w : option Py.dict) :
  weights_ok w = true -> exists s, Mpi.calculate_deprivation_score d w = Ok s.
Proof.
  destruct w as [t|]; simpl; intro H; unfold Mpi.calculate_deprivation_score.
  - apply std_score_loop_total, H.
  - apply std_score_loop_total, standard_weights_over_indicators.
Qed.

Lemma std_household_inv (hh : Mpi.HouseholdData) (w : option Py.dict)
    (cutoff : option Q) (r : Mpi.ScoreResult) :
  Mpi.calculate_household_mpi hh w cutoff = Ok r ->
  Mpi.calculate_deprivation_score (Mpi.deprivations hh) w
    = Ok (Mpi.sr_deprivation_score r)
  /\ Mpi.sr_is_poor r = Mpi.is_poor (Mpi.sr_deprivation_score r) cutoff
  /\ Mpi.sr_intensity r = Mpi.calculate_intensity (Mpi.sr_deprivation_score r) cutoff.
Proof.
  unfold Mpi.calculate_household_mpi.
  destruct (Mpi.calculate_deprivation_score _ _) as [s|e]; simpl; intro H;
    [injection H as <-; simpl; auto | discriminate].
Qed.

Lemma std_household_total (hh : Mpi.HouseholdData) (w : option Py.dict)
    (cutoff : option Q) :
  weights_ok w = true -> exists r, Mpi.calculate_household_mpi hh w cutoff = Ok r.
Proof.
  intro H. destruct (std_score_total (Mpi.deprivations hh) w H) as (s & E).
  unfold Mpi.calculate_household_mpi. rewrite E; simpl. eauto.
Qed.

(** ** The enhanced engine *)

Lemma enh_getattr_simple (d : EnhancedMpi.EnhancedDeprivationScore) (k : string) :
  In k EnhancedMpi.SIMPLE_INDICATORS -> exists v, EnhancedMpi.getattr d k = Ok v.
Proof.
  unfold EnhancedMpi.SIMPLE_INDICATORS; simpl; intro Hin.
  repeat (destruct Hin as [<- | Hin]; [eexists; reflexivity | ]).
  contradiction.
Qed.

Lemma enh_simple_loop_total (d : EnhancedMpi.EnhancedDeprivationScore)
    (w : Py.dict) (ks : list string) (acc : Q) :
  (forall k, In k ks -> exists v, Py.getitem w k = Ok v) ->
  (forall k, In k ks -> exists v, EnhancedMpi.getattr d k = Ok v) ->
  exists s, EnhancedMpi.simple_loop d w ks acc = Ok s.
Proof.
  revert acc; induction ks as [|k ks IH]; intros acc Hw Hd; simpl.
  - eauto.
  - destruct (Hw k (or_introl eq_refl)) as (x & ->); simpl.
    destruct (Hd k (or_introl eq_refl)) as (v & ->); simpl.
    apply IH; intros; [apply Hw | apply Hd]; right; assumption.
Qed.

Lemma enhanced_weights_have_keys :
  has_keys ENHANCED_KEYS EnhancedMpi.ENHANCED_WEIGHTS = true
  /\ has_keys HOUSING_KEYS EnhancedMpi.DEFAULT_HOUSING_WEIGHTS = true.
Proof. split; reflexivity. Qed.

Lemma enh_score_total (d : EnhancedMpi.EnhancedDeprivationScore)
    (w hw : option Py.dict) :
  enhanced_weights_ok w hw = true ->
  exists s, EnhancedMpi.calculate_deprivation_score d w hw = Ok s.
Proof.
  intro H. apply andb_true_iff in H. destruct H as [Hw Hh].
  unfold EnhancedMpi.calculate_deprivation_score.
  set (wt := match w with None => EnhancedMpi.ENHANCED_WEIGHTS | Some t => t end).
  set (ht := match hw with None => EnhancedMpi.DEFAULT_HOUSING_WEIGHTS | Some t => t end).
  assert (Kw : has_keys ENHANCED_KEYS wt = true)
    by (subst wt; destruct w; [exact Hw | reflexivity]).
  assert (Kh : has_keys HOUSING_KEYS ht = true)
    by (subst ht; destruct hw; [exact Hh | reflexivity]).
  destruct (enh_simple_loop_total d wt EnhancedMpi.SIMPLE_INDICATORS 0) as (s & ->).
  - intros k Hk. apply (has_keys_getitem ENHANCED_KEYS); [exact Kw|].
    unfold EnhancedMpi.SIMPLE_INDICATORS in Hk; unfold ENHANCED_KEYS; simpl in *.
    tauto.
  - apply enh_getattr_simple.
  - simpl.
    destruct (has_keys_getitem _ _ "structure" Kh) as (? & ->); [simpl; tauto|].
    destruct (has_keys_getitem _ _ "tenure" Kh) as (? & ->); [simpl; tauto|].
    destruct (has_keys_getitem _ _ "cost" Kh) as (? & ->); [simpl; tauto|].
    destruct (has_keys_getitem _ _ "housing" Kw) as (? & ->); [simpl; tauto|].
    destruct (has_keys_getitem _ _ "digital" Kw) as (? & ->); [simpl; tauto|].
    destruct (has_keys_getitem _ _ "transport" Kw) as (? & ->); [simpl; tauto|].
    destruct (has_keys_getitem _ _ "economic_security" Kw) as (? & ->); [simpl; tauto|].
    destruct (has_keys_getitem _ _ "environment" Kw) as (? & ->); [simpl; tauto|].
    simpl. eauto.
Qed.

Lemma enh_household_inv (hh : EnhancedMpi.EnhancedHouseholdData)
    (w hw : option Py.dict) (cutoff : option Q) (r : EnhancedMpi.ScoreResult) :
  EnhancedMpi.calculate_household_mpi hh w hw cutoff = Ok r ->
  let c := match cutoff with None => 0.33 | Some c => c end in
  EnhancedMpi.calculate_deprivation_score (EnhancedMpi.deprivations hh) w hw
    = Ok (EnhancedMpi.sr_deprivation_score r)
  /\ EnhancedMpi.sr_is_poor r = Qle_bool c (EnhancedMpi.sr_deprivation_score r)
  /\ EnhancedMpi.sr_intensity r
     = (if EnhancedMpi.sr_is_poor r then EnhancedMpi.sr_deprivation_score r else 0).
Proof.
  unfold EnhancedMpi.calculate_household_mpi.
  destruct (EnhancedMpi.calculate_deprivation_score _ _ _) as [s|e]; simpl; intro H;
    [injection H as <-; simpl; destruct cutoff; auto | discriminate].
Qed.

(** ** Classification *)

(** C3.  Every [ScoreResult] computed by the standard and by the enhanced
    engine, under the default cutoff 0.33 or a cutoff given with the call,
    has [is_poor] true exactly when [deprivation_score >= cutoff], and
    [intensity] equal to the score when poor and to 0 otherwise; with
    usable weight tables both engines do return a result. *)
Theorem classification_consistency
    (hh : Mpi.HouseholdData) (ehh : EnhancedMpi.EnhancedHouseholdData)
    (w ew ehw : option Py.dict) (cutoff : option Q) :
  weights_ok w = true ->
  enhanced_weights_ok ew ehw = true ->
  let c := match cutoff with None => 0.33 | Some c => c end in
  (exists r, Mpi.calculate_household_mpi hh w cutoff = Ok r
     /\ (Mpi.sr_is_poor r = true <-> c <= Mpi.sr_deprivation_score r)
     /\ Mpi.sr_intensity r
        = (if Mpi.sr_is_poor r then Mpi.sr_deprivation_score r else 0))
  /\
  (exists r, EnhancedMpi.calculate_household_mpi ehh ew ehw cutoff = Ok r
     /\ (EnhancedMpi.sr_is_poor r = true <-> c <= EnhancedMpi.sr_deprivation_score r)
     /\ EnhancedMpi.sr_intensity r
        = (if EnhancedMpi.sr_is_poor r
           then EnhancedMpi.sr_deprivation_score r else 0)).
Proof.
  intros Hw Hew c. split.
  - destruct (std_household_total hh w cutoff Hw) as (r & E).
    exists r. split; [exact E|].
    destruct (std_household_inv _ _ _ _ E) as (_ & P & I).
    rewrite I, P. unfold Mpi.is_poor, Mpi.calculate_intensity, Mpi.POVERTY_CUTOFF.
    subst c. split; [apply Qle_bool_iff | reflexivity].
  - destruct (enh_score_total (EnhancedMpi.deprivations ehh) ew ehw Hew) as (s & E).
    assert (T : exists r, EnhancedMpi.calculate_household_mpi ehh ew ehw cutoff = Ok r)
      by (unfold EnhancedMpi.calculate_household_mpi; rewrite E; simpl; eauto).
    destruct T as (r & Er). exists r. split; [exact Er|].
    destruct (enh_household_inv _ _ _ _ _ Er) as (_ & P & I).
    split; [rewrite P; apply Qle_bool_iff | exact I].
Qed.

(** ** Scenario B: the fully deprived household *)



(** Without the sign condition the score is not even near 1: the entries of
    [F64.cancelling_table] sum to 1 without rounding and the loop returns
    [0.0]. *)
Lemma cancelling_table_scored_zero :
  (exists s, F64.exact_sum (F64.values F64.cancelling_table) = Some s /\ s == 1)
  /\ exists x,
       F64.calculate_deprivation_score F64.all_deprived
         (Some F64.cancelling_table) = Ok x
       /\ PrimFloat.eqb x PrimFloat.zero = true.
Proof.
  split.
  - eexists; split; [vm_compute; reflexivity | vm_compute; reflexivity].
  - eexists; split; [vm_compute; reflexivity | vm_compute; reflexivity].
Qed.


(** ** Comparison of the standard and an adjusted regime *)

(** The comparison has one table argument: its first regime is always
    the standard table.  For two arbitrary regimes A and B it therefore does
    not report the flip and the difference of A against B: household HH001
    is poor under [living_standards_table] and not poor under the standard
    table, yet the comparison with the standard table as regime B reports
    no change of classification and a zero difference. *)
Lemma comparison_has_no_first_regime :
  ~ (forall (hh : Mpi.HouseholdData) (weightsA weightsB : Py.dict),
       over_indicators weightsA = true ->
       over_indicators weightsB = true ->
       exists cmp resultA resultB,
         Mpi.compare_standard_vs_adjusted hh weightsB = Ok cmp
         /\ Mpi.calculate_household_mpi hh (Some weightsA) None = Ok resultA
         /\ Mpi.calculate_household_mpi hh (Some weightsB) None = Ok resultB
         /\ (Mpi.classification_changed (Mpi.difference cmp) = true
             <-> Mpi.sr_is_poor resultA <> Mpi.sr_is_poor resultB)
         /\ Mpi.diff_deprivation_score (Mpi.difference cmp)
            == Mpi.sr_deprivation_score resultB
               - Mpi.sr_deprivation_score resultA).
Proof.
  intro H.
  destruct (H Examples.hh001 Examples.living_standards_table
              Mpi.STANDARD_WEIGHTS eq_refl eq_refl)
    as (cmp & rA & rB & E & EA & EB & F & _).
  vm_compute in E. injection E as <-.
  vm_compute in EA. injection EA as <-.
  vm_compute in EB. injection EB as <-.
  simpl in F. destruct F as [_ F].
  assert (C : false = true) by (apply F; discriminate).
  discriminate C.
Qed.

(** C7.  For every household and every adjusted weight table over the core
    indicators, the comparison of the standard regime (the standard table,
    default cutoff) with the adjusted one returns the two household results
    (standard table, adjusted table), reports [classification_changed]
    exactly when their [is_poor] flags differ, and a score difference equal
    to the adjusted score minus the standard score. *)
Theorem comparison_reports_flip_and_delta
    (hh : Mpi.HouseholdData) (adjusted_weights : Py.dict) :
  over_indicators adjusted_weights = true ->
  exists cmp, Mpi.compare_standard_vs_adjusted hh adjusted_weights = Ok cmp
    /\ Mpi.calculate_household_mpi hh None None = Ok (Mpi.standard cmp)
    /\ Mpi.calculate_household_mpi hh (Some adjusted_weights) None
       = Ok (Mpi.adjusted cmp)
    /\ (Mpi.classification_changed (Mpi.difference cmp) = true
        <-> Mpi.sr_is_poor (Mpi.standard cmp) <> Mpi.sr_is_poor (Mpi.adjusted cmp))
    /\ Mpi.diff_deprivation_score (Mpi.difference cmp)
       = Mpi.sr_deprivation_score (Mpi.adjusted cmp)
         - Mpi.sr_deprivation_score (Mpi.standard cmp).
Proof.
  intro Hw.
  destruct (std_household_total hh None None eq_refl) as (a & Ea).
  destruct (std_household_total hh (Some adjusted_weights) None Hw) as (b & Eb).
  unfold Mpi.compare_standard_vs_adjusted. rewrite Ea, Eb; simpl.
  eexists; split; [reflexivity|]; simpl.
  repeat split; try reflexivity.
  - destruct (Mpi.sr_is_poor a), (Mpi.sr_is_poor b); simpl; congruence.
  - destruct (Mpi.sr_is_poor a), (Mpi.sr_is_poor b); simpl; congruence.
Qed.

(** ** Population aggregation *)

Lemma household_results_total (hhs : list Mpi.HouseholdData)
    (w : option Py.dict) (cutoff : option Q) :
  weights_ok w = true ->
  exists results, Mpi.household_results hhs w cutoff = Ok results
    /\ Forall2 (fun hh x => Mpi.calculate_household_mpi hh w cutoff = Ok x)
         hhs results.
Proof.
  intro Hw. induction hhs as [|hh hhs IH]; simpl.
  - exists []. split; [reflexivity | constructor].
  - destruct (std_household_total hh w cutoff Hw) as (r & E).
    destruct IH as (rs & Ers & F).
    rewrite E; simpl. rewrite Ers; simpl.
    exists (r :: rs). split; [reflexivity | constructor; assumption].
Qed.

Lemma count_poor_acc (results : list Mpi.ScoreResult) (acc : Z) :
  fold_left (fun a r => if Mpi.sr_is_poor r then (a + 1)%Z else a) results acc
  = (acc + Z.of_nat (List.length (filter Mpi.sr_is_poor results)))%Z.
Proof.
  revert acc; induction results as [|r rs IH]; intro acc; simpl.
  - lia.
  - rewrite IH. destruct (Mpi.sr_is_poor r); simpl; lia.
Qed.

Lemma count_poor_filter (results : list Mpi.ScoreResult) :
  Mpi.count_poor results = Z.of_nat (List.length (filter Mpi.sr_is_poor results)).
Proof. unfold Mpi.count_poor. rewrite count_poor_acc. lia. Qed.

Lemma np_mean_nonempty (xs : list Q) :
  xs <> [] ->
  Py.np_mean xs = Ok (Py.sum xs / inject_Z (Z.of_nat (List.length xs))).
Proof. destruct xs; [congruence | reflexivity]. Qed.

Lemma inject_Z_of_nat_nonzero (n : nat) : n <> 0%nat -> ~ inject_Z (Z.of_nat n) == 0.
Proof.
  intros Hn H. unfold Qeq in H; simpl in H. lia.
Qed.

(** C1.  For every collection of households and every cutoff (with a usable
    weight table, and with any table when the collection is empty),
    population aggregation returns a result whose [headcount_ratio] is the
    number of poor households over the total, whose [intensity] is the mean
    of the intensity values of the poor households only (0 when none is
    poor), and whose [MPI] is their product; the empty collection yields
    the all-zero result and no error. *)
Theorem population_mpi_decomposition
    (households : list Mpi.HouseholdData) (weights : option Py.dict)
    (cutoff : option Q) :
  households = [] \/ weights_ok weights = true ->
  exists results r,
    Forall2 (fun hh x => Mpi.calculate_household_mpi hh weights cutoff = Ok x)
      households results
    /\ Mpi.calculate_population_mpi households weights cutoff = Ok r
    /\ let poor := filter Mpi.sr_is_poor results in
       let n_poor := Z.of_nat (List.length poor) in
       let total := Z.of_nat (List.length households) in
       Mpi.total_population r = total
       /\ Mpi.num_poor r = n_poor
       /\ Mpi.headcount_ratio r
          == match households with
             | [] => 0
             | _ => inject_Z n_poor / inject_Z total
             end
       /\ Mpi.intensity r
          == match poor with
             | [] => 0
             | _ => Py.sum (map Mpi.sr_intensity poor) / inject_Z n_poor
             end
       /\ Mpi.MPI r == Mpi.headcount_ratio r * Mpi.intensity r
       /\ (households = [] -> r = Mpi.mkPopulationResult 0 0 0 0 0 None).
Proof.
  intro H. destruct households as [|hh rest].
  - exists [], (Mpi.mkPopulationResult 0 0 0 0 0 None).
    split; [constructor|]. split; [reflexivity|]. simpl.
    repeat split; reflexivity.
  - destruct H as [H|Hw]; [discriminate|].
    destruct (household_results_total (hh :: rest) weights cutoff Hw)
      as (results & E & F).
    exists results.
    assert (Hlen : List.length results = List.length (hh :: rest))
      by (symmetry; eapply Forall2_length; exact F).
    set (hhs := hh :: rest) in *.
    assert (Hne : results <> []) by (destruct results; [discriminate | congruence]).
    unfold Mpi.calculate_population_mpi. fold hhs. unfold hhs at 1.
    rewrite E. cbv beta iota delta [Py.bind].
    rewrite count_poor_filter.
    set (poor := filter Mpi.sr_is_poor results).
    set (n_poor := Z.of_nat (List.length poor)).
    set (total := Z.of_nat (List.length hhs)).
    assert (Htot : (0 < total)%Z) by (subst total hhs; simpl; lia).
    assert (Htb : (0 <? total)%Z = true) by (apply Z.ltb_lt; exact Htot).
    rewrite Htb.
    assert (Hq : ~ inject_Z total == 0)
      by (subst total; apply inject_Z_of_nat_nonzero; subst hhs; discriminate).
    rewrite (truediv_ok _ _ Hq).
    rewrite (np_mean_nonempty (map Mpi.sr_deprivation_score results))
      by (destruct results; [congruence | discriminate]).
    destruct poor as [|p ps] eqn:Ep.
    + assert (Hn0 : (0 <? n_poor)%Z = false) by (subst n_poor; reflexivity).
      rewrite Hn0. eexists. split; [exact F|]. split; [reflexivity|].
      cbv zeta. cbn [Mpi.total_population Mpi.num_poor Mpi.headcount_ratio
                     Mpi.intensity Mpi.MPI].
      repeat split; try reflexivity. discriminate.
    + assert (Hn1 : (0 <? n_poor)%Z = true)
        by (subst n_poor; apply Z.ltb_lt; simpl; lia).
      rewrite Hn1.
      rewrite (np_mean_nonempty (map Mpi.sr_intensity (p :: ps))) by discriminate.
      eexists. split; [exact F|]. split; [reflexivity|].
      cbv zeta. cbn [Mpi.total_population Mpi.num_poor Mpi.headcount_ratio
                     Mpi.intensity Mpi.MPI].
      rewrite length_map.
      repeat split; try reflexivity. discriminate.
Qed.


(** ** The climate-adjusted weight policy *)

Lemma np_clip_unit (x : Q) : unit_interval (Py.np_clip x 0 1).
Proof.
  unfold unit_interval, Py.np_clip. split.
  - apply Q.min_glb; [apply Q.le_max_r | lra].
  - apply Q.le_min_r.
Qed.

Lemma climate_harshness_unit (c : Cells.ClimateProfile) :
  unit_interval (Cells.climate_harshness c).
Proof. unfold Cells.climate_harshness. apply np_clip_unit. Qed.

Lemma base_weights_sum (h u : Q) :
  Py.sum (Py.values (Cells.base_weights h u)) == 0.9 + 0.24 * h + 0.14 * u.
Proof.
  cbv [Py.sum Py.values Cells.base_weights map fold_left snd]. ring.
Qed.

Lemma base_weights_sum_nonzero (h u : Q) :
  0 <= h -> 0 <= u -> ~ Py.sum (Py.values (Cells.base_weights h u)) == 0.
Proof.
  intros Hh Hu. rewrite base_weights_sum. lra.
Qed.

Lemma same_table_trans (a b c : Py.dict) :
  same_table a b -> same_table b c -> same_table a c.
Proof.
  unfold same_table. intro Hab; revert c.
  induction Hab as [|x y a b [Hk Hv] Hab IH]; intros c Hbc; inversion Hbc; subst.
  - constructor.
  - constructor.
    + destruct H1 as [Hk' Hv']. split; [congruence | rewrite Hv; exact Hv'].
    + apply IH; assumption.
Qed.

Lemma same_table_map_div (d : Py.dict) (t t' : Q) :
  t == t' ->
  same_table (map (fun kv => (fst kv, snd kv / t)) d)
             (map (fun kv => (fst kv, snd kv / t')) d).
Proof.
  intro Ht. induction d as [|[k v] d IH]; simpl; constructor.
  - simpl. split; [reflexivity | rewrite Ht; reflexivity].
  - exact IH.
Qed.

Lemma normalize_base_weights (h u : Q) :
  0 <= h -> 0 <= u ->
  exists w, Cells.normalize (Cells.base_weights h u) = Ok w
    /\ same_table w
         (map (fun kv => (fst kv, snd kv / (0.9 + 0.24 * h + 0.14 * u)))
              (Cells.base_weights h u))
    /\ Py.sum (Py.values w) == 1.
Proof.
  intros Hh Hu. pose proof (base_weights_sum_nonzero h u Hh Hu) as Hne.
  unfold Cells.normalize.
  destruct (div_items_ok (Cells.base_weights h u) _ Hne) as (w & E & T & S).
  exists w. split; [exact E | split].
  - eapply same_table_trans; [exact T|].
    apply same_table_map_div, base_weights_sum.
  - rewrite S. field. exact Hne.
Qed.

(** C2.  For a cell with a climate profile, harshness [h] (always in [0,1])
    and urbanization [u] in [0,1], the climate-adjusted policy returns the
    ten entries electricity = 0.08 + 0.12 h, cooking_fuel = 0.05 + 0.05 h,
    sanitation = drinking_water = 0.08 + 0.07 u, flooring = 0.08 + 0.07 h,
    nutrition = child_mortality = 0.15, years_schooling =
    school_attendance = 0.08, assets = 0.07, each divided by the sum of
    the ten. *)
Theorem climate_weights_formula
    (log10 : Q -> Q) (cell : Cells.GeographicCell) (c : Cells.ClimateProfile) :
  Cells.climate cell = Some c ->
  let h := Cells.climate_harshness c in
  let u := match Cells.context cell with
           | Some x => Cells.urbanization_level log10 x
           | None => 0.5
           end in
  unit_interval u ->
  let total := (0.08 + 0.12 * h) + (0.05 + 0.05 * h) + (0.08 + 0.07 * u)
               + (0.08 + 0.07 * u) + (0.08 + 0.07 * h)
               + 0.15 + 0.15 + 0.08 + 0.08 + 0.07 in
  unit_interval h
  /\ exists w, Cells.get_climate_weights log10 cell = Ok w
       /\ same_table w
            [ ("electricity", (0.08 + 0.12 * h) / total);
              ("cooking_fuel", (0.05 + 0.05 * h) / total);
              ("sanitation", (0.08 + 0.07 * u) / total);
              ("drinking_water", (0.08 + 0.07 * u) / total);
              ("flooring", (0.08 + 0.07 * h) / total);
              ("nutrition", 0.15 / total);
              ("child_mortality", 0.15 / total);
              ("years_schooling", 0.08 / total);
              ("school_attendance", 0.08 / total);
              ("assets", 0.07 / total) ].
Proof.
  intros Hc h u Hu total.
  pose proof (climate_harshness_unit c) as Hh. fold h in Hh.
  split; [exact Hh|].
  destruct Hh as [Hh0 _]. destruct Hu as [Hu0 _].
  destruct (normalize_base_weights h u Hh0 Hu0) as (w & E & T & _).
  exists w. split.
  - unfold Cells.get_climate_weights. rewrite Hc. exact E.
  - eapply same_table_trans; [exact T|].
    assert (Ht : 0.9 + 0.24 * h + 0.14 * u == total) by (subst total; ring).
    exact (same_table_map_div (Cells.base_weights h u) _ _ Ht).
Qed.



(** ** The enhanced weight policy *)

Lemma context_adjusted_weights_unfold (h u : Q) (sprawl digital rental : option Q) :
  EnhancedMpi.get_context_adjusted_weights h u sprawl digital rental
  = Cells.normalize
      (enhanced_adjusted_table h u (EnhancedMpi.default_half sprawl)
         (EnhancedMpi.default_half digital)).
Proof.
  unfold EnhancedMpi.get_context_adjusted_weights, Cells.normalize,
    enhanced_adjusted_table.
  cbv -[Qplus Qmult Qdiv Py.sum Py.div_items Py.values EnhancedMpi.default_half].
  reflexivity.
Qed.

Lemma enhanced_adjusted_sum (h u s d : Q) :
  Py.sum (Py.values (enhanced_adjusted_table h u s d))
  == 1 + 0.09 * h + 0.08 * u + 0.06 * s + 0.05 * d.
Proof.
  cbv [Py.sum Py.values enhanced_adjusted_table map fold_left snd]. ring.
Qed.

Lemma default_half_unit (x : option Q) :
  opt_unit_interval x -> unit_interval (EnhancedMpi.default_half x).
Proof.
  destruct x; simpl; [auto | intros _; unfold unit_interval; lra].
Qed.

Lemma context_adjusted_weights_ok (h u : Q) (sprawl digital rental : option Q) :
  0 <= h -> 0 <= u -> opt_unit_interval sprawl -> opt_unit_interval digital ->
  exists w, EnhancedMpi.get_context_adjusted_weights h u sprawl digital rental = Ok w
    /\ Py.sum (Py.values w) == 1.
Proof.
  intros Hh Hu Hs Hd.
  apply default_half_unit in Hs; apply default_half_unit in Hd.
  destruct Hs as [Hs _]; destruct Hd as [Hd _].
  rewrite context_adjusted_weights_unfold. unfold Cells.normalize.
  set (t := enhanced_adjusted_table _ _ _ _).
  assert (Hne : ~ Py.sum (Py.values t) == 0)
    by (subst t; rewrite enhanced_adjusted_sum; lra).
  destruct (div_items_ok t _ Hne) as (w & E & _ & S).
  exists w. split; [exact E | rewrite S; field; exact Hne].
Qed.

Lemma housing_subcomponent_weights_ok (h r : Q) :
  0 <= h -> 0 <= r ->
  exists w, EnhancedMpi.calculate_housing_subcomponent_weights h r = Ok w
    /\ Py.keys w = HOUSING_KEYS
    /\ Py.sum (Py.values w) == 1.
Proof.
  intros Hh Hr. unfold EnhancedMpi.calculate_housing_subcomponent_weights.
  cbv zeta.
  set (total := 0.40 + 0.10 * h + 0.30 + (0.30 + 0.15 * r)).
  assert (Hne : ~ total == 0) by (subst total; lra).
  rewrite !(truediv_ok _ _ Hne). cbv beta iota delta [Py.bind].
  eexists. split; [reflexivity | split; [reflexivity|]].
  cbv [Py.sum Py.values map fold_left snd].
  subst total. field. lra.
Qed.

(** ** Normalization *)

(** C4.  For context scalars in [0,1] (optional ones absent or in [0,1]),
    the standard table, the climate-adjusted table of a cell, the enhanced
    context-adjusted table and the housing sub-component table are all
    produced and each sums to 1 within 1e-9; so do the base tables the
    enhanced engine falls back to. *)
Theorem weight_tables_normalized
    (log10 : Q -> Q) (cell : Cells.GeographicCell) (c : Cells.ClimateProfile)
    (h u tightness : Q) (sprawl digital rental : option Q) :
  Cells.climate cell = Some c ->
  unit_interval (match Cells.context cell with
                 | Some x => Cells.urbanization_level log10 x
                 | None => 0.5
                 end) ->
  unit_interval h -> unit_interval u -> unit_interval tightness ->
  opt_unit_interval sprawl -> opt_unit_interval digital ->
  opt_unit_interval rental ->
  sums_to_one Mpi.STANDARD_WEIGHTS
  /\ (exists w, Cells.get_climate_weights log10 cell = Ok w /\ sums_to_one w)
  /\ (exists w, EnhancedMpi.get_context_adjusted_weights h u sprawl digital rental
                = Ok w /\ sums_to_one w)
  /\ (exists w, EnhancedMpi.calculate_housing_subcomponent_weights h tightness
                = Ok w /\ sums_to_one w)
  /\ sums_to_one EnhancedMpi.ENHANCED_WEIGHTS
  /\ sums_to_one EnhancedMpi.DEFAULT_HOUSING_WEIGHTS.
Proof.
  intros Hc [Hcu _] [Hh _] [Hu _] [Ht _] Hs Hd _.
  split; [vm_compute; discriminate|].
  split.
  { destruct (climate_harshness_unit c) as [Hch _].
    destruct (normalize_base_weights _ _ Hch Hcu) as (w & E & _ & S).
    exists w. split; [|apply sums_to_one_exact, S].
    unfold Cells.get_climate_weights. rewrite Hc. exact E. }
  split.
  { destruct (context_adjusted_weights_ok h u sprawl digital rental Hh Hu Hs Hd)
      as (w & E & S).
    exists w. split; [exact E | apply sums_to_one_exact, S]. }
  split.
  { destruct (housing_subcomponent_weights_ok h tightness Hh Ht) as (w & E & _ & S).
    exists w. split; [exact E | apply sums_to_one_exact, S]. }
  split; vm_compute; discriminate.
Qed.


(** ** Missing context *)



(** ** Cost burdens *)

Lemma cost_burden_of_spec (income cost : option Q) :
  burden_spec income cost (EnhancedMpi.cost_burden_of income cost).
Proof.
  unfold burden_spec, EnhancedMpi.cost_burden_of, Py.truthy, Py.gt.
  destruct income as [i|]; [|reflexivity].
  destruct cost as [c|]; [|destruct (negb (Qeq_bool i 0)); reflexivity].
  destruct (Qeq_bool i 0) eqn:Ei; simpl.
  - apply Qeq_bool_iff in Ei. split.
    + intros [Hi _]. rewrite Ei in Hi. lra.
    + reflexivity.
  - apply Qeq_bool_neq in Ei.
    destruct (Qeq_bool c 0) eqn:Ec; simpl.
    + apply Qeq_bool_iff in Ec. split; [intros [_ Hc]; contradiction | reflexivity].
    + apply Qeq_bool_neq in Ec.
      destruct (Qle_bool i 0) eqn:El; simpl.
      * apply Qle_bool_iff in El. split; [intros [Hi _]; lra | reflexivity].
      * assert (Hi : 0 < i).
        { apply Qnot_le_lt. intro Hle. apply Qle_bool_iff in Hle. congruence. }
        rewrite (truediv_ok c i Ei). simpl. split; [reflexivity|].
        intros [Hle | Hc]; [lra | contradiction].
Qed.

(** C10.  The two cost-burden properties never raise and never divide by
    zero: each returns cost / income when the monthly income is present and
    strictly positive and its cost is present and not zero, and [None] in
    every other case, a cost of exactly 0 included. *)
Theorem cost_burdens_total (hh : EnhancedMpi.EnhancedHouseholdData) :
  burden_spec (EnhancedMpi.monthly_income hh) (EnhancedMpi.monthly_housing_cost hh)
    (EnhancedMpi.housing_cost_burden hh)
  /\ burden_spec (EnhancedMpi.monthly_income hh)
       (EnhancedMpi.monthly_transport_cost hh)
       (EnhancedMpi.transport_cost_burden hh)
  /\ (exists r, EnhancedMpi.housing_cost_burden hh = Ok r)
  /\ (exists r, EnhancedMpi.transport_cost_burden hh = Ok r)
  /\ (forall i, EnhancedMpi.monthly_income hh = Some i ->
        EnhancedMpi.cost_burden_of (Some i) (Some 0) = Ok None).
Proof.
  pose proof (cost_burden_of_spec (EnhancedMpi.monthly_income hh)
                (EnhancedMpi.monthly_housing_cost hh)) as Hh.
  pose proof (cost_burden_of_spec (EnhancedMpi.monthly_income hh)
                (EnhancedMpi.monthly_transport_cost hh)) as Ht.
  assert (T : forall income cost,
             exists r, EnhancedMpi.cost_burden_of income cost = Ok r).
  { intros income cost. unfold EnhancedMpi.cost_burden_of.
    destruct income as [i|]; [|eauto].
    destruct (Py.truthy i) eqn:Ti; [|eauto].
    destruct cost as [c|]; [|eauto].
    destruct (Py.truthy c); [|eauto].
    destruct (Py.gt i 0); [|eauto].
    unfold Py.truthy in Ti. apply negb_true_iff, Qeq_bool_neq in Ti.
    rewrite (truediv_ok c i Ti). simpl. eauto. }
  split; [exact Hh|]. split; [exact Ht|].
  split; [apply T|]. split; [apply T|].
  intros i _. unfold EnhancedMpi.cost_burden_of.
  destruct (Py.truthy i); reflexivity.
Qed.

(** ** Range validation *)

Lemma in_unit_spec (v : Q) : Py.in_unit v = true <-> unit_interval v.
Proof.
  unfold Py.in_unit, unit_interval.
  rewrite andb_true_iff, !Qle_bool_iff. tauto.
Qed.

Lemma in_unit_false (v : Q) : ~ unit_interval v -> Py.in_unit v = false.
Proof.
  intro H. destruct (Py.in_unit v) eqn:E; [|reflexivity].
  apply in_unit_spec in E. contradiction.
Qed.

Lemma std_validate_raises (items : Py.dict) :
  (exists v, In v (Py.values items) /\ ~ unit_interval v) ->
  exists f v, Mpi.validate items = Raise (RangeViolation f v)
    /\ In (f, v) items /\ ~ unit_interval v.
Proof.
  induction items as [|[k x] items IH]; intros (v & Hin & Hv); simpl in *.
  - contradiction.
  - destruct (Py.in_unit x) eqn:E; simpl.
    + destruct Hin as [-> | Hin].
      * apply in_unit_spec in E. contradiction.
      * destruct IH as (f & y & Ey & Hy & Hn); [eauto|].
        exists f, y. auto.
    + exists k, x. split; [reflexivity | split; [auto|]].
      intro Hx. apply in_unit_spec in Hx. congruence.
Qed.

Lemma std_validate_ok (items : Py.dict) :
  Forall unit_interval (Py.values items) -> Mpi.validate items = Ok tt.
Proof.
  induction items as [|[k x] items IH]; simpl; intro H; [reflexivity|].
  inversion H as [|? ? Hx Hr]; subst.
  apply in_unit_spec in Hx. rewrite Hx; simpl. apply IH, Hr.
Qed.

Lemma enh_validate_raises (items : list (string * EnhancedMpi.attr)) :
  (exists k v, In (k, EnhancedMpi.AFloat v) items /\ ~ unit_interval v) ->
  exists f v, EnhancedMpi.validate items = Raise (RangeViolation f v)
    /\ ~ unit_interval v.
Proof.
  induction items as [|[k a] items IH]; intros (k' & v & Hin & Hv); simpl in *.
  - contradiction.
  - destruct a as [x| | | | |];
      try (destruct Hin as [Heq | Hin]; [discriminate | apply IH; eauto]).
    destruct (Py.in_unit x) eqn:E; simpl.
    + destruct Hin as [Heq | Hin].
      * injection Heq as _ ->. apply in_unit_spec in E. contradiction.
      * apply IH; eauto.
    + exists k, x. split; [reflexivity|].
      intro Hx. apply in_unit_spec in Hx. congruence.
Qed.

Lemma enh_validate_ok (items : list (string * EnhancedMpi.attr)) :
  (forall k v, In (k, EnhancedMpi.AFloat v) items -> unit_interval v) ->
  EnhancedMpi.validate items = Ok tt.
Proof.
  induction items as [|[k a] items IH]; simpl; intro H; [reflexivity|].
  destruct a as [x| | | | |]; try (apply IH; intros; eapply H; eauto).
  assert (Hx : unit_interval x) by (eapply H; eauto).
  apply in_unit_spec in Hx. rewrite Hx; simpl. apply IH; intros; eapply H; eauto.
Qed.

(** Exceptions of the scoring paths. *)

Lemma getitem_exn (w : Py.dict) (k : string) (e : exn) :
  Py.getitem w k = Raise e -> e = KeyError k.
Proof.
  induction w as [|[k' v] w IH]; simpl.
  - congruence.
  - destruct (String.eqb k k'); [discriminate | exact IH].
Qed.

Lemma std_getattr_exn (d : Mpi.DeprivationScore) (k : string) (e : exn) :
  Mpi.getattr d k = Raise e -> e = AttributeError k.
Proof.
  unfold Mpi.getattr. destruct (Py.getitem _ _); congruence.
Qed.

Lemma std_score_loop_exn (d : Mpi.DeprivationScore) (w : Py.dict) (acc : Q)
    (e : exn) :
  Mpi.score_loop d w acc = Raise e -> Py.is_range_violation e = false.
Proof.
  revert acc; induction w as [|[k x] w IH]; intro acc; simpl.
  - discriminate.
  - destruct (Mpi.getattr d k) as [v|e'] eqn:G; simpl.
    + apply IH.
    + intro H; injection H as <-. apply std_getattr_exn in G. subst e'. reflexivity.
Qed.

Lemma std_household_exn (hh : Mpi.HouseholdData) (w : option Py.dict)
    (cutoff : option Q) (e : exn) :
  Mpi.calculate_household_mpi hh w cutoff = Raise e ->
  Py.is_range_violation e = false.
Proof.
  unfold Mpi.calculate_household_mpi, Mpi.calculate_deprivation_score.
  destruct (Mpi.score_loop _ _ _) as [s|e'] eqn:L; simpl; [discriminate|].
  intro H; injection H as <-. eapply std_score_loop_exn; exact L.
Qed.

Lemma household_results_exn (hhs : list Mpi.HouseholdData) (w : option Py.dict)
    (cutoff : option Q) (e : exn) :
  Mpi.household_results hhs w cutoff = Raise e ->
  Py.is_range_violation e = false.
Proof.
  induction hhs as [|hh hhs IH]; simpl; [discriminate|].
  destruct (Mpi.calculate_household_mpi hh w cutoff) as [r|e'] eqn:H1; simpl.
  - destruct (Mpi.household_results hhs w cutoff) as [rs|e'']; simpl;
      [discriminate | intro H; injection H as <-; apply IH; reflexivity].
  - intro H; injection H as <-. eapply std_household_exn; exact H1.
Qed.

Lemma truediv_exn (x y : Q) (e : exn) :
  Py.truediv x y = Raise e -> Py.is_range_violation e = false.
Proof.
  unfold Py.truediv. destruct (Qeq_bool y 0); [|discriminate].
  intro H; injection H as <-; reflexivity.
Qed.

Lemma np_mean_exn (xs : list Q) (e : exn) :
  Py.np_mean xs = Raise e -> Py.is_range_violation e = false.
Proof.
  destruct xs; simpl; [|discriminate]. intro H; injection H as <-; reflexivity.
Qed.

(** Case analysis of a chain of binds whose outcome is a [Raise]. *)
Ltac raise_cases :=
  repeat (match goal with
          | |- context [if ?b then _ else _] => destruct b
          | |- context [match ?c with Ok _ => _ | Raise _ => _ end] =>
              lazymatch c with
              | context [match _ with Ok _ => _ | Raise _ => _ end] => fail
              | _ => let E := fresh "E" in destruct c eqn:E
              end
          end; cbv beta iota);
  try discriminate;
  let H := fresh "H" in intro H; injection H as <-.

Lemma population_exn (hhs : list Mpi.HouseholdData) (w : option Py.dict)
    (cutoff : option Q) (e : exn) :
  Mpi.calculate_population_mpi hhs w cutoff = Raise e ->
  Py.is_range_violation e = false.
Proof.
  unfold Mpi.calculate_population_mpi.
  destruct hhs as [|hh rest]; [discriminate|].
  cbv beta iota zeta delta [Py.bind].
  raise_cases;
    first [ eapply np_mean_exn; eassumption
          | eapply truediv_exn; eassumption
          | eapply household_results_exn; eassumption ].
Qed.

Lemma compare_exn (hh : Mpi.HouseholdData) (w : Py.dict) (e : exn) :
  Mpi.compare_standard_vs_adjusted hh w = Raise e ->
  Py.is_range_violation e = false.
Proof.
  unfold Mpi.compare_standard_vs_adjusted.
  cbv beta iota zeta delta [Py.bind].
  raise_cases; eapply std_household_exn; eassumption.
Qed.

Lemma enh_getattr_exn (d : EnhancedMpi.EnhancedDeprivationScore) (k : string)
    (e : exn) :
  EnhancedMpi.getattr d k = Raise e -> e = AttributeError k.
Proof.
  unfold EnhancedMpi.getattr.
  destruct (EnhancedMpi.lookup_attr _ _) as [[]|]; congruence.
Qed.

Lemma enh_simple_loop_exn (d : EnhancedMpi.EnhancedDeprivationScore)
    (w : Py.dict) (ks : list string) (acc : Q) (e : exn) :
  EnhancedMpi.simple_loop d w ks acc = Raise e ->
  Py.is_range_violation e = false.
Proof.
  revert acc; induction ks as [|k ks IH]; intro acc; simpl; [discriminate|].
  destruct (Py.getitem w k) as [x|e1] eqn:G; simpl.
  - destruct (EnhancedMpi.getattr d k) as [v|e2] eqn:A; simpl; [apply IH|].
    intro H; injection H as <-. apply enh_getattr_exn in A; subst; reflexivity.
  - intro H; injection H as <-. apply getitem_exn in G; subst; reflexivity.
Qed.

Lemma getitem_exn_not_range (w : Py.dict) (k : string) (e : exn) :
  Py.getitem w k = Raise e -> Py.is_range_violation e = false.
Proof. intro H. apply getitem_exn in H. subst. reflexivity. Qed.

Lemma enh_household_exn (hh : EnhancedMpi.EnhancedHouseholdData)
    (w hw : option Py.dict) (cutoff : option Q) (e : exn) :
  EnhancedMpi.calculate_household_mpi hh w hw cutoff = Raise e ->
  Py.is_range_violation e = false.
Proof.
  unfold EnhancedMpi.calculate_household_mpi,
    EnhancedMpi.calculate_deprivation_score.
  cbv beta iota zeta delta [Py.bind].
  raise_cases;
    first [ eapply enh_simple_loop_exn; eassumption
          | eapply getitem_exn_not_range; eassumption ].
Qed.

(** C5, as stated, fails: an enhanced vector whose housing sub-vector has
    [structure_quality = 1.5] is constructed without error. *)
Lemma subvector_components_not_validated :
  ~ (forall (n cm ys sa el sn dw cf a : Q)
            (hs : EnhancedMpi.EnhancedHousingDeprivation)
            (dg : EnhancedMpi.DigitalDeprivation)
            (tr : EnhancedMpi.TransportDeprivation)
            (ec : EnhancedMpi.EconomicVulnerability)
            (ev : EnhancedMpi.EnvironmentalDeprivation),
       (exists v,
           In v (scalar_components
                   (EnhancedMpi.mkEnhancedDeprivationScore
                      n cm ys sa el sn dw cf a hs dg tr ec ev))
           /\ ~ unit_interval v) ->
       exists f v,
         EnhancedMpi.new_EnhancedDeprivationScore
           n cm ys sa el sn dw cf a hs dg tr ec ev
         = Raise (RangeViolation f v)).
Proof.
  intro H.
  destruct (H 0 0 0 0 0 0 0 0 0
              (EnhancedMpi.mkEnhancedHousingDeprivation 1.5 0 0)
              (EnhancedMpi.mkDigitalDeprivation 0 0 0)
              (EnhancedMpi.mkTransportDeprivation 0 0 0)
              (EnhancedMpi.mkEconomicVulnerability 0 0 0 0)
              (EnhancedMpi.mkEnvironmentalDeprivation 0 0 0 0))
    as (f & v & E).
  - exists 1.5. split; [simpl; tauto | unfold unit_interval; lra].
  - vm_compute in E. discriminate.
Qed.

(** C5, amended.  Constructing a standard deprivation vector with any of
    its ten components outside [0,1], or an enhanced one with any of its
    nine top-level scalar indicators outside [0,1], fails with a
    range-violation error at construction; with those in range the enhanced
    construction succeeds whatever the components of the five composite
    sub-vectors are; and no scoring, aggregation or comparison call ever
    raises a range-violation error. *)
Theorem range_checked_at_construction
    (n cm ys sa el sn dw fl cf a : Q)
    (n' cm' ys' sa' el' sn' dw' cf' a' : Q)
    (hs : EnhancedMpi.EnhancedHousingDeprivation)
    (dg : EnhancedMpi.DigitalDeprivation)
    (tr : EnhancedMpi.TransportDeprivation)
    (ec : EnhancedMpi.EconomicVulnerability)
    (ev : EnhancedMpi.EnvironmentalDeprivation) :
  (exists v, In v [n; cm; ys; sa; el; sn; dw; fl; cf; a] /\ ~ unit_interval v) ->
  (exists v, In v [n'; cm'; ys'; sa'; el'; sn'; dw'; cf'; a']
             /\ ~ unit_interval v) ->
  (exists f v, Mpi.new_DeprivationScore n cm ys sa el sn dw fl cf a
               = Raise (RangeViolation f v) /\ ~ unit_interval v)
  /\ (exists f v, EnhancedMpi.new_EnhancedDeprivationScore
                    n' cm' ys' sa' el' sn' dw' cf' a' hs dg tr ec ev
                  = Raise (RangeViolation f v) /\ ~ unit_interval v)
  /\ (forall d : EnhancedMpi.EnhancedDeprivationScore,
        Forall unit_interval (top_level_scalars d) ->
        EnhancedMpi.new_EnhancedDeprivationScore
          (EnhancedMpi.nutrition d) (EnhancedMpi.child_mortality d)
          (EnhancedMpi.years_schooling d) (EnhancedMpi.school_attendance d)
          (EnhancedMpi.electricity d) (EnhancedMpi.sanitation d)
          (EnhancedMpi.drinking_water d) (EnhancedMpi.cooking_fuel d)
          (EnhancedMpi.assets d) (EnhancedMpi.housing d) (EnhancedMpi.digital d)
          (EnhancedMpi.transport d) (EnhancedMpi.economic_security d)
          (EnhancedMpi.environment d)
        = Ok d)
  /\ (forall hh w cutoff f v,
        Mpi.calculate_household_mpi hh w cutoff <> Raise (RangeViolation f v))
  /\ (forall hhs w cutoff f v,
        Mpi.calculate_population_mpi hhs w cutoff <> Raise (RangeViolation f v))
  /\ (forall hh w f v,
        Mpi.compare_standard_vs_adjusted hh w <> Raise (RangeViolation f v))
  /\ (forall hh w hw cutoff f v,
        EnhancedMpi.calculate_household_mpi hh w hw cutoff
        <> Raise (RangeViolation f v)).
Proof.
  intros Hstd Henh.
  split; [|split; [|split; [|split; [|split; [|split]]]]].
  - destruct (std_validate_raises
                (Mpi.dict_items (Mpi.mkDeprivationScore n cm ys sa el sn dw fl cf a)))
      as (f & v & E & _ & Hv).
    { destruct Hstd as (v & Hin & Hv). exists v. split; [exact Hin | exact Hv]. }
    exists f, v. split; [|exact Hv].
    unfold Mpi.new_DeprivationScore, Mpi.post_init. rewrite E. reflexivity.
  - destruct (enh_validate_raises
                (EnhancedMpi.dict_items
                   (EnhancedMpi.mkEnhancedDeprivationScore
                      n' cm' ys' sa' el' sn' dw' cf' a' hs dg tr ec ev)))
      as (f & v & E & Hv).
    { destruct Henh as (v & Hin & Hv). simpl in Hin.
      repeat (destruct Hin as [<- | Hin];
              [eexists _, _; split; [|exact Hv]; simpl; tauto|]).
      contradiction. }
    exists f, v. split; [|exact Hv].
    unfold EnhancedMpi.new_EnhancedDeprivationScore, EnhancedMpi.post_init.
    rewrite E. reflexivity.
  - intros d Hd.
    unfold EnhancedMpi.new_EnhancedDeprivationScore, EnhancedMpi.post_init.
    destruct d. cbn [EnhancedMpi.nutrition EnhancedMpi.child_mortality
      EnhancedMpi.years_schooling EnhancedMpi.school_attendance
      EnhancedMpi.electricity EnhancedMpi.sanitation EnhancedMpi.drinking_water
      EnhancedMpi.cooking_fuel EnhancedMpi.assets EnhancedMpi.housing
      EnhancedMpi.digital EnhancedMpi.transport EnhancedMpi.economic_security
      EnhancedMpi.environment].
    rewrite enh_validate_ok; [reflexivity|].
    intros k v Hin. rewrite Forall_forall in Hd. apply Hd.
    simpl in Hin |- *.
    repeat (destruct Hin as [Heq | Hin];
            [first [injection Heq as _ <-; tauto | discriminate] |]).
    contradiction.
  - intros hh w cutoff f v E. apply std_household_exn in E. discriminate.
  - intros hhs w cutoff f v E. apply population_exn in E. discriminate.
  - intros hh w f v E. apply compare_exn in E. discriminate.
  - intros hh w hw cutoff f v E. apply enh_household_exn in E. discriminate.
Qed.

(** * The theorems at the fixtures of the test scripts *)

Lemma population_mpi_decomposition_witness :
  ([Examples.hh001; Examples.all_deprived; Examples.not_deprived] = []
   \/ weights_ok None = true)
  /\ exists r,
       Mpi.calculate_population_mpi
         [Examples.hh001; Examples.all_deprived; Examples.not_deprived] None None
       = Ok r
       /\ Mpi.total_population r = 3%Z
       /\ Mpi.MPI r == Mpi.headcount_ratio r * Mpi.intensity r.
Proof.
  split; [right; reflexivity|].
  destruct (population_mpi_decomposition
              [Examples.hh001; Examples.all_deprived; Examples.not_deprived]
              None None (or_intror eq_refl))
    as (results & r & _ & E & T & _ & _ & _ & M & _).
  exists r. split; [exact E | split; [exact T | exact M]].
Defined.

Lemma climate_weights_formula_witness :
  Cells.climate Examples.harsh_cell = Some Examples.harsh_climate
  /\ unit_interval
       (Cells.urbanization_level Examples.log10_approx Examples.urban_context)
  /\ unit_interval (Cells.climate_harshness Examples.harsh_climate)
  /\ exists w,
       Cells.get_climate_weights Examples.log10_approx Examples.harsh_cell = Ok w
       /\ List.length w = 10%nat.
Proof.
  assert (Hu : unit_interval
                 (Cells.urbanization_level Examples.log10_approx
                    Examples.urban_context))
    by (split; vm_compute; discriminate).
  split; [reflexivity | split; [exact Hu|]].
  destruct (climate_weights_formula Examples.log10_approx Examples.harsh_cell
              Examples.harsh_climate eq_refl Hu) as (Hh & w & E & T).
  split; [exact Hh|]. exists w. split; [exact E|].
  apply Forall2_length in T. exact T.
Defined.

Lemma classification_consistency_witness :
  weights_ok None = true
  /\ enhanced_weights_ok None None = true
  /\ (exists r, Mpi.calculate_household_mpi Examples.hh001 None (Some 0.2) = Ok r
        /\ (Mpi.sr_is_poor r = true <-> 0.2 <= Mpi.sr_deprivation_score r))
  /\ (exists r, EnhancedMpi.calculate_household_mpi Examples.renter_high_cost
                  None None (Some 0.2) = Ok r
        /\ (EnhancedMpi.sr_is_poor r = true
            <-> 0.2 <= EnhancedMpi.sr_deprivation_score r)).
Proof.
  split; [reflexivity | split; [reflexivity|]].
  pose proof (classification_consistency Examples.hh001 Examples.renter_high_cost
                None None None (Some 0.2) eq_refl eq_refl) as H.
  cbv zeta in H. destruct H as [(r & E & P & _) (r' & E' & P' & _)].
  split; [exists r | exists r']; split; assumption.
Defined.

Lemma weight_tables_normalized_witness :
  Cells.climate Examples.harsh_cell = Some Examples.harsh_climate
  /\ unit_interval 1 /\ unit_interval 0 /\ unit_interval 0.5
  /\ opt_unit_interval None /\ opt_unit_interval (Some 0.6)
  /\ (exists w, Cells.get_climate_weights Examples.log10_approx Examples.harsh_cell
                = Ok w /\ sums_to_one w)
  /\ (exists w, EnhancedMpi.get_context_adjusted_weights 1 0 None (Some 0.6) None
                = Ok w /\ sums_to_one w)
  /\ (exists w, EnhancedMpi.calculate_housing_subcomponent_weights 1 0.5
                = Ok w /\ sums_to_one w).
Proof.
  assert (U1 : unit_interval 1) by (unfold unit_interval; lra).
  assert (U0 : unit_interval 0) by (unfold unit_interval; lra).
  assert (Uh : unit_interval 0.5) by (unfold unit_interval; lra).
  assert (U6 : opt_unit_interval (Some 0.6)) by (simpl; unfold unit_interval; lra).
  assert (Hu : unit_interval
                 (Cells.urbanization_level Examples.log10_approx
                    Examples.urban_context))
    by (split; vm_compute; discriminate).
  destruct (weight_tables_normalized Examples.log10_approx Examples.harsh_cell
              Examples.harsh_climate 1 0 0.5 None (Some 0.6) None
              eq_refl Hu U1 U0 Uh I U6 I)
    as (_ & C & E & H & _).
  repeat (split; [first [reflexivity | assumption | exact I]|]).
  exact H.
Defined.

Lemma range_checked_at_construction_witness :
  (exists v, In v [0; 0; 0; 0; 0; 1.5; 0; 0; 0; 0] /\ ~ unit_interval v)
  /\ (exists v, In v [0; 0; 0; 0; -0.25; 0; 0; 0; 0] /\ ~ unit_interval v)
  /\ (exists f v, Mpi.new_DeprivationScore 0 0 0 0 0 1.5 0 0 0 0
                  = Raise (RangeViolation f v))
  /\ (exists f v,
        EnhancedMpi.new_EnhancedDeprivationScore 0 0 0 0 (-0.25) 0 0 0 0
          (EnhancedMpi.mkEnhancedHousingDeprivation 0.2 0.3 0.9)
          (EnhancedMpi.mkDigitalDeprivation 0 0 0)
          (EnhancedMpi.mkTransportDeprivation 0 0.3 0)
          (EnhancedMpi.mkEconomicVulnerability 0.3 0.8 0 0.6)
          (EnhancedMpi.mkEnvironmentalDeprivation 0 0 0 0)
        = Raise (RangeViolation f v)).
Proof.
  assert (H1 : exists v, In v [0; 0; 0; 0; 0; 1.5; 0; 0; 0; 0] /\ ~ unit_interval v)
    by (exists 1.5; split; [simpl; tauto | unfold unit_interval; lra]).
  assert (H2 : exists v, In v [0; 0; 0; 0; -0.25; 0; 0; 0; 0] /\ ~ unit_interval v)
    by (exists (-0.25); split; [simpl; tauto | unfold unit_interval; lra]).
  split; [exact H1 | split; [exact H2|]].
  destruct (range_checked_at_construction
              0 0 0 0 0 1.5 0 0 0 0 0 0 0 0 (-0.25) 0 0 0 0
              (EnhancedMpi.mkEnhancedHousingDeprivation 0.2 0.3 0.9)
              (EnhancedMpi.mkDigitalDeprivation 0 0 0)
              (EnhancedMpi.mkTransportDeprivation 0 0.3 0)
              (EnhancedMpi.mkEconomicVulnerability 0.3 0.8 0 0.6)
              (EnhancedMpi.mkEnvironmentalDeprivation 0 0 0 0) H1 H2)
    as ((f & v & E & _) & (f' & v' & E' & _) & _).
  split; [exists f, v; exact E | exists f', v'; exact E'].
Defined.


Lemma comparison_reports_flip_and_delta_witness :
  over_indicators (Cells.base_weights 1 0) = true
  /\ exists cmp,
       Mpi.compare_standard_vs_adjusted Examples.hh001 (Cells.base_weights 1 0)
       = Ok cmp
       /\ (Mpi.classification_changed (Mpi.difference cmp) = true
           <-> Mpi.sr_is_poor (Mpi.standard cmp)
               <> Mpi.sr_is_poor (Mpi.adjusted cmp)).
Proof.
  split; [reflexivity|].
  destruct (comparison_reports_flip_and_delta Examples.hh001
              (Cells.base_weights 1 0) eq_refl) as (cmp & E & _ & _ & F & _).
  exists cmp. split; [exact E | exact F].
Defined.



(** * Further properties of the engine *)

(** ** Construction of a standard deprivation vector *)

Lemma std_validate_ok_inv (items : Py.dict) :
  Mpi.validate items = Ok tt -> Forall unit_interval (Py.values items).
Proof.
  induction items as [|[k x] items IH]; simpl; intro H; [constructor|].
  destruct (Py.in_unit x) eqn:E; simpl in H; [|discriminate].
  constructor; [apply in_unit_spec, E | apply IH, H].
Qed.

Lemma std_validate_first (items : Py.dict) (e : exn) :
  Mpi.validate items = Raise e ->
  exists pre f v post,
    items = (pre ++ (f, v) :: post)%list
    /\ e = RangeViolation f v
    /\ ~ unit_interval v
    /\ Forall unit_interval (Py.values pre).
Proof.
  induction items as [|[k x] items IH]; simpl; intro H; [discriminate|].
  destruct (Py.in_unit x) eqn:E; simpl in H.
  - destruct (IH H) as (pre & f & v & post & -> & He & Hv & Hpre).
    exists ((k, x) :: pre), f, v, post.
    repeat split; try assumption.
    simpl. constructor; [apply in_unit_spec, E | exact Hpre].
  - injection H as <-. exists [], k, x, items.
    repeat split; [|constructor].
    intro Hx. apply in_unit_spec in Hx. congruence.
Qed.

(** X1.  A standard deprivation vector is constructed exactly when its ten
    components all lie in [0,1], and the object built then carries the ten
    values unchanged. *)
Theorem standard_vector_constructed_iff_in_range
    (n cm ys sa el sn dw fl cf a : Q) :
  (Forall unit_interval [n; cm; ys; sa; el; sn; dw; fl; cf; a]
   <-> Mpi.new_DeprivationScore n cm ys sa el sn dw fl cf a
       = Ok (Mpi.mkDeprivationScore n cm ys sa el sn dw fl cf a))
  /\ (forall d, Mpi.new_DeprivationScore n cm ys sa el sn dw fl cf a = Ok d ->
        d = Mpi.mkDeprivationScore n cm ys sa el sn dw fl cf a).
Proof.
  unfold Mpi.new_DeprivationScore, Mpi.post_init.
  set (self := Mpi.mkDeprivationScore n cm ys sa el sn dw fl cf a).
  split; [split|].
  - intro H. rewrite (std_validate_ok (Mpi.dict_items self)); [reflexivity | exact H].
  - destruct (Mpi.validate (Mpi.dict_items self)) as [[]|e] eqn:V; simpl;
      [intros _ | discriminate].
    exact (std_validate_ok_inv _ V).
  - intros d. destruct (Mpi.validate (Mpi.dict_items self)) as [[]|e]; simpl;
      [intro H; injection H as <-; reflexivity | discriminate].
Qed.

(** X2.  When the construction of a standard deprivation vector fails, the
    error names the first field, in declaration order, whose value is
    outside [0,1], together with that value. *)
Theorem standard_vector_error_names_first_violation
    (n cm ys sa el sn dw fl cf a : Q) (e : exn) :
  Mpi.new_DeprivationScore n cm ys sa el sn dw fl cf a = Raise e ->
  exists pre f v post,
    Mpi.dict_items (Mpi.mkDeprivationScore n cm ys sa el sn dw fl cf a)
    = (pre ++ (f, v) :: post)%list
    /\ e = RangeViolation f v
    /\ ~ unit_interval v
    /\ Forall unit_interval (Py.values pre).
Proof.
  unfold Mpi.new_DeprivationScore, Mpi.post_init.
  destruct (Mpi.validate _) as [[]|e'] eqn:V; simpl; [discriminate|].
  intro H; injection H as <-. exact (std_validate_first _ _ V).
Qed.

Lemma standard_vector_error_names_first_violation_witness :
  Mpi.new_DeprivationScore 0 0 0 0 0 1.5 0 (-1) 0 0
  = Raise (RangeViolation "sanitation" 1.5)
  /\ exists pre f v post,
       Mpi.dict_items (Mpi.mkDeprivationScore 0 0 0 0 0 1.5 0 (-1) 0 0)
       = (pre ++ (f, v) :: post)%list
       /\ RangeViolation "sanitation" 1.5 = RangeViolation f v
       /\ ~ unit_interval v
       /\ Forall unit_interval (Py.values pre).
Proof.
  split; [reflexivity|].
  exact (standard_vector_error_names_first_violation
           0 0 0 0 0 1.5 0 (-1) 0 0 _ eq_refl).
Defined.

(** ** The weighted score *)








Lemma std_score_loop_zeros (d : Mpi.DeprivationScore) (w : Py.dict) (acc : Q) :
  Forall (fun kv => snd kv == 0) (Mpi.dict_items d) ->
  over_indicators w = true ->
  exists s, Mpi.score_loop d w acc = Ok s /\ s == acc.
Proof.
  intro Hd. revert acc; induction w as [|[k x] w IH]; intros acc H; simpl.
  - exists acc. split; reflexivity.
  - unfold over_indicators in H; simpl in H.
    apply andb_true_iff in H; destruct H as [Hk Hw].
    destruct (std_getattr_total d k Hk) as (v & -> & Hin); simpl.
    rewrite Forall_forall in Hd. specialize (Hd _ Hin); simpl in Hd.
    destruct (IH (acc + x * v) Hw) as (s & -> & Hs).
    exists s. split; [reflexivity | rewrite Hs, Hd; ring].
Qed.

(** X4.  A household with all ten core indicators at 0 scores exactly 0
    under the standard table and under any table over the core indicators
    (whatever its entries), is not poor and has intensity 0, for the default
    cutoff and for any strictly positive cutoff. *)
Theorem not_deprived_scores_zero
    (hh : Mpi.HouseholdData) (weights : option Py.dict) (cutoff : option Q) :
  Forall (fun kv => snd kv == 0) (Mpi.dict_items (Mpi.deprivations hh)) ->
  weights_ok weights = true ->
  match cutoff with None => True | Some c => 0 < c end ->
  exists r, Mpi.calculate_household_mpi hh weights cutoff = Ok r
    /\ Mpi.sr_deprivation_score r == 0
    /\ Mpi.sr_is_poor r = false
    /\ Mpi.sr_intensity r = 0.
Proof.
  intros Hd Hw Hc.
  assert (Ho : over_indicators (table_of weights) = true)
    by (destruct weights; [exact Hw | reflexivity]).
  destruct (std_score_loop_zeros _ (table_of weights) 0 Hd Ho) as (s & E & Hs).
  assert (Es : Mpi.calculate_deprivation_score (Mpi.deprivations hh) weights = Ok s)
    by (destruct weights; exact E).
  unfold Mpi.calculate_household_mpi. rewrite Es; simpl.
  eexists; split; [reflexivity|]; simpl.
  assert (P : Mpi.is_poor s cutoff = false).
  { unfold Mpi.is_poor.
    destruct (Qle_bool _ s) eqn:Q; [|reflexivity].
    apply Qle_bool_iff in Q. rewrite Hs in Q.
    destruct cutoff; [lra | unfold Mpi.POVERTY_CUTOFF in Q; lra]. }
  split; [exact Hs | split; [exact P|]].
  unfold Mpi.calculate_intensity. unfold Mpi.is_poor in P. rewrite P. reflexivity.
Qed.

Lemma not_deprived_scores_zero_witness :
  Forall (fun kv => snd kv == 0)
    (Mpi.dict_items (Mpi.deprivations Examples.not_deprived))
  /\ weights_ok (Some (Cells.base_weights 1 0)) = true
  /\ 0 < 0.1
  /\ exists r,
       Mpi.calculate_household_mpi Examples.not_deprived
         (Some (Cells.base_weights 1 0)) (Some 0.1) = Ok r
       /\ Mpi.sr_is_poor r = false.
Proof.
  assert (Hd : Forall (fun kv => snd kv == 0)
                 (Mpi.dict_items (Mpi.deprivations Examples.not_deprived)))
    by (repeat (constructor; [reflexivity|]); constructor).
  assert (Hc : 0 < 0.1) by lra.
  split; [exact Hd | split; [reflexivity | split; [exact Hc|]]].
  destruct (not_deprived_scores_zero Examples.not_deprived
              (Some (Cells.base_weights 1 0)) (Some 0.1) Hd eq_refl Hc)
    as (r & E & _ & P & _).
  exists r. split; assumption.
Defined.





Lemma getitem_pointwise_le (a b : Py.dict) (k : string) (v : Q) :
  Forall2 (fun x y => fst x = fst y /\ snd x <= snd y) a b ->
  Py.getitem a k = Ok v ->
  exists v', Py.getitem b k = Ok v' /\ v <= v'.
Proof.
  induction 1 as [|[ka va] [kb vb] a b [Hk Hv] _ IH]; simpl; [discriminate|].
  simpl in Hk, Hv; subst kb.
  destruct (String.eqb k ka).
  - intro H; injection H as <-. eauto.
  - exact IH.
Qed.

Lemma std_getattr_le (d d' : Mpi.DeprivationScore) (k : string) (v : Q) :
  vector_le d d' -> Mpi.getattr d k = Ok v ->
  exists v', Mpi.getattr d' k = Ok v' /\ v <= v'.
Proof.
  intros Hle. unfold Mpi.getattr.
  destruct (Py.getitem (Mpi.dict_items d) k) as [x|] eqn:G; [|discriminate].
  intro H; injection H as <-.
  destruct (getitem_pointwise_le _ _ k x Hle G) as (v' & -> & Hv). eauto.
Qed.

Lemma std_score_loop_mono (d d' : Mpi.DeprivationScore) (w : Py.dict)
    (acc acc' s : Q) :
  vector_le d d' -> nonneg_table w -> acc <= acc' ->
  Mpi.score_loop d w acc = Ok s ->
  exists s', Mpi.score_loop d' w acc' = Ok s' /\ s <= s'.
Proof.
  intros Hle. revert acc acc'; induction w as [|[k x] w IH];
    intros acc acc' Hn Hacc; simpl.
  - intro H; injection H as <-. eauto.
  - inversion Hn as [|? ? Hx Hn']; subst; simpl in Hx.
    destruct (Mpi.getattr d k) as [v|] eqn:G; simpl; [|discriminate].
    destruct (std_getattr_le d d' k v Hle G) as (v' & -> & Hv); simpl.
    apply IH; [exact Hn'|].
    assert (x * v <= x * v').
    { rewrite (Qmult_comm x v), (Qmult_comm x v').
      apply Qmult_le_compat_r; assumption. }
    lra.
Qed.

(** X7.  With a table that has no negative entry, the score is monotone in
    the deprivations: if every indicator of one household is at most that
    of another, the first household's score is at most the second's, and if
    the first is poor so is the second (same table, same cutoff). *)
Theorem score_monotone_in_deprivations
    (hh hh' : Mpi.HouseholdData) (weights : option Py.dict) (cutoff : option Q)
    (r : Mpi.ScoreResult) :
  vector_le (Mpi.deprivations hh) (Mpi.deprivations hh') ->
  nonneg_table (table_of weights) ->
  Mpi.calculate_household_mpi hh weights cutoff = Ok r ->
  exists r', Mpi.calculate_household_mpi hh' weights cutoff = Ok r'
    /\ Mpi.sr_deprivation_score r <= Mpi.sr_deprivation_score r'
    /\ (Mpi.sr_is_poor r = true -> Mpi.sr_is_poor r' = true).
Proof.
  intros Hle Hn E.
  destruct (std_household_inv _ _ _ _ E) as (Es & P & _).
  assert (L : Mpi.score_loop (Mpi.deprivations hh) (table_of weights) 0
              = Ok (Mpi.sr_deprivation_score r))
    by (destruct weights; exact Es).
  destruct (std_score_loop_mono _ _ _ 0 0 _ Hle Hn (Qle_refl 0) L) as (s' & E' & Hs).
  assert (Es' : Mpi.calculate_deprivation_score (Mpi.deprivations hh') weights = Ok s')
    by (destruct weights; exact E').
  unfold Mpi.calculate_household_mpi. rewrite Es'; simpl.
  eexists; split; [reflexivity|]; simpl. split; [exact Hs|].
  rewrite P. unfold Mpi.is_poor. rewrite !Qle_bool_iff. intro H. lra.
Qed.

Lemma score_monotone_in_deprivations_witness :
  vector_le (Mpi.deprivations Examples.hh001) (Mpi.deprivations Examples.all_deprived)
  /\ nonneg_table (table_of None)
  /\ exists r r',
       Mpi.calculate_household_mpi Examples.hh001 None None = Ok r
       /\ Mpi.calculate_household_mpi Examples.all_deprived None None = Ok r'
       /\ Mpi.sr_deprivation_score r <= Mpi.sr_deprivation_score r'.
Proof.
  assert (Hle : vector_le (Mpi.deprivations Examples.hh001)
                  (Mpi.deprivations Examples.all_deprived))
    by (repeat (constructor; [split; [reflexivity | vm_compute; discriminate]|]);
        constructor).
  assert (Hn : nonneg_table (table_of None))
    by (repeat (constructor; [vm_compute; discriminate|]); constructor).
  split; [exact Hle | split; [exact Hn|]].
  destruct (std_household_total Examples.hh001 None None eq_refl) as (r & E).
  destruct (score_monotone_in_deprivations Examples.hh001 Examples.all_deprived
              None None r Hle Hn E) as (r' & E' & Hs & _).
  exists r, r'. repeat split; assumption.
Defined.

(** ** Population aggregation, continued *)

Lemma household_results_inv (hhs : list Mpi.HouseholdData) (w : option Py.dict)
    (cutoff : option Q) (results : list Mpi.ScoreResult) :
  Mpi.household_results hhs w cutoff = Ok results ->
  Forall2 (fun hh x => Mpi.calculate_household_mpi hh w cutoff = Ok x) hhs results.
Proof.
  revert results; induction hhs as [|hh hhs IH]; intros results; simpl.
  - intro H; injection H as <-. constructor.
  - destruct (Mpi.calculate_household_mpi hh w cutoff) as [r|] eqn:E; simpl;
      [|discriminate].
    destruct (Mpi.household_results hhs w cutoff) as [rs|]; simpl; [|discriminate].
    intro H; injection H as <-. constructor; [exact E | apply IH; reflexivity].
Qed.

(** What a successful aggregation of a non-empty population is made of. *)
Lemma population_inv (hh : Mpi.HouseholdData) (rest : list Mpi.HouseholdData)
    (w : option Py.dict) (cutoff : option Q) (r : Mpi.PopulationResult) :
  Mpi.calculate_population_mpi (hh :: rest) w cutoff = Ok r ->
  exists results,
    Forall2 (fun h x => Mpi.calculate_household_mpi h w cutoff = Ok x)
      (hh :: rest) results
    /\ let poor := filter Mpi.sr_is_poor results in
       let n_poor := Z.of_nat (List.length poor) in
       let total := Z.of_nat (List.length (hh :: rest)) in
       Mpi.num_poor r = n_poor
       /\ Mpi.total_population r = total
       /\ Mpi.headcount_ratio r = inject_Z n_poor / inject_Z total
       /\ Mpi.intensity r
          = match poor with
            | [] => 0
            | _ => Py.sum (map Mpi.sr_intensity poor) / inject_Z n_poor
            end
       /\ Mpi.MPI r = Mpi.headcount_ratio r * Mpi.intensity r
       /\ Mpi.avg_deprivation_score r
          = Some (Py.sum (map Mpi.sr_deprivation_score results) / inject_Z total).
Proof.
  unfold Mpi.calculate_population_mpi.
  destruct (Mpi.household_results (hh :: rest) w cutoff) as [results|] eqn:E;
    cbv beta iota delta [Py.bind]; [|discriminate].
  pose proof (household_results_inv _ _ _ _ E) as F.
  assert (Hlen : List.length results = List.length (hh :: rest))
    by (symmetry; eapply Forall2_length; exact F).
  set (hhs := hh :: rest) in *.
  rewrite count_poor_filter.
  set (poor := filter Mpi.sr_is_poor results).
  set (n_poor := Z.of_nat (List.length poor)).
  set (total := Z.of_nat (List.length hhs)).
  assert (Htb : (0 <? total)%Z = true)
    by (apply Z.ltb_lt; subst total hhs; simpl; lia).
  rewrite Htb.
  assert (Hq : ~ inject_Z total == 0)
    by (subst total; apply inject_Z_of_nat_nonzero; subst hhs; discriminate).
  rewrite (truediv_ok _ _ Hq).
  rewrite (np_mean_nonempty (map Mpi.sr_deprivation_score results))
    by (destruct results; [discriminate | discriminate]).
  rewrite length_map, Hlen. fold total.
  intro H. exists results. split; [exact F|]. cbv zeta.
  fold poor. fold n_poor.
  destruct poor as [|p ps] eqn:Ep.
  - assert (Hn0 : (0 <? n_poor)%Z = false) by (subst n_poor; reflexivity).
    rewrite Hn0 in H. injection H as <-. cbn. repeat split.
  - assert (Hn1 : (0 <? n_poor)%Z = true)
      by (subst n_poor; apply Z.ltb_lt; simpl; lia).
    rewrite Hn1 in H.
    rewrite (np_mean_nonempty (map Mpi.sr_intensity (p :: ps))) in H by discriminate.
    rewrite length_map in H. fold n_poor in H.
    injection H as <-. cbn [Mpi.num_poor Mpi.total_population Mpi.headcount_ratio
                            Mpi.intensity Mpi.MPI Mpi.avg_deprivation_score].
    repeat split.
Qed.

Lemma ratio_unit (n t : nat) :
  (n <= t)%nat -> t <> 0%nat ->
  unit_interval (inject_Z (Z.of_nat n) / inject_Z (Z.of_nat t)).
Proof.
  intros Hle Ht.
  assert (Tpos : 0 < inject_Z (Z.of_nat t))
    by (rewrite <- (Zlt_Qlt 0); lia).
  assert (N0 : 0 <= inject_Z (Z.of_nat n))
    by (rewrite <- (Zle_Qle 0); lia).
  assert (NT : inject_Z (Z.of_nat n) <= inject_Z (Z.of_nat t))
    by (rewrite <- Zle_Qle; lia).
  split.
  - apply Qle_shift_div_l; [exact Tpos | lra].
  - apply Qle_shift_div_r; [exact Tpos | lra].
Qed.

(** X6.  Whatever aggregation returns, the number of poor households lies
    between 0 and the population size and the headcount ratio lies in
    [0,1]. *)
Theorem headcount_ratio_in_unit_interval
    (households : list Mpi.HouseholdData) (weights : option Py.dict)
    (cutoff : option Q) (r : Mpi.PopulationResult) :
  Mpi.calculate_population_mpi households weights cutoff = Ok r ->
  (0 <= Mpi.num_poor r <= Mpi.total_population r)%Z
  /\ Mpi.total_population r = Z.of_nat (List.length households)
  /\ unit_interval (Mpi.headcount_ratio r).
Proof.
  destruct households as [|hh rest].
  - intro H; injection H as <-. simpl. repeat split; try lia; lra.
  - intro H. destruct (population_inv _ _ _ _ _ H) as (results & F & N & T & R & _).
    cbv zeta in N, T, R.
    pose proof (Forall2_length F) as Hlen.
    pose proof (filter_length_le Mpi.sr_is_poor results) as Hf.
    rewrite N, T, R. split; [lia | split; [reflexivity|]].
    apply ratio_unit; [lia | discriminate].
Qed.

Lemma headcount_ratio_in_unit_interval_witness :
  exists r,
    Mpi.calculate_population_mpi
      [Examples.hh001; Examples.all_deprived; Examples.not_deprived] None None
    = Ok r
    /\ unit_interval (Mpi.headcount_ratio r).
Proof.
  eexists. split; [reflexivity|].
  exact (proj2 (proj2 (headcount_ratio_in_unit_interval
                         [Examples.hh001; Examples.all_deprived;
                          Examples.not_deprived] None None _ eq_refl))).
Defined.

Lemma getitem_in (d : Py.dict) (k : string) (v : Q) :
  Py.getitem d k = Ok v -> In (k, v) d.
Proof.
  induction d as [|[k' v'] d IH]; simpl; [discriminate|].
  destruct (String.eqb k k') eqn:E.
  - intro H; injection H as <-. apply String.eqb_eq in E. subst. auto.
  - auto.
Qed.


















Lemma poor_under_lower_cutoff (hhs : list Mpi.HouseholdData) (w : option Py.dict)
    (c1 c2 : option Q) (l1 l2 : list Mpi.ScoreResult) :
  match c1 with None => 0.33 | Some c => c end
  <= match c2 with None => 0.33 | Some c => c end ->
  Forall2 (fun h x => Mpi.calculate_household_mpi h w c1 = Ok x) hhs l1 ->
  Forall2 (fun h x => Mpi.calculate_household_mpi h w c2 = Ok x) hhs l2 ->
  (List.length (filter Mpi.sr_is_poor l2)
   <= List.length (filter Mpi.sr_is_poor l1))%nat.
Proof.
  intros Hc F1. revert l2. induction F1 as [|h x hhs l1 E _ IH]; intros l2 F2;
    inversion F2 as [|? y ? l2' E' F2']; subst; simpl; [lia|].
  specialize (IH _ F2').
  destruct (std_household_inv _ _ _ _ E) as (S1 & P1 & _).
  destruct (std_household_inv _ _ _ _ E') as (S2 & P2 & _).
  rewrite S1 in S2. injection S2 as S2.
  assert (Hp : Mpi.sr_is_poor y = true -> Mpi.sr_is_poor x = true).
  { rewrite P1, P2, <- S2. unfold Mpi.is_poor, Mpi.POVERTY_CUTOFF.
    rewrite !Qle_bool_iff. intro H. destruct c1, c2; lra. }
  destruct (Mpi.sr_is_poor y); destruct (Mpi.sr_is_poor x); simpl;
    first [lia | discriminate (Hp eq_refl)].
Qed.

(** X11.  Raising the cutoff never adds poor households: for the same
    households and table, the number of poor and the headcount ratio under
    the higher cutoff are at most those under the lower one (an omitted
    cutoff counting as 0.33). *)
Theorem headcount_antitone_in_cutoff
    (households : list Mpi.HouseholdData) (weights : option Py.dict)
    (c1 c2 : option Q) (r1 r2 : Mpi.PopulationResult) :
  match c1 with None => 0.33 | Some c => c end
  <= match c2 with None => 0.33 | Some c => c end ->
  Mpi.calculate_population_mpi households weights c1 = Ok r1 ->
  Mpi.calculate_population_mpi households weights c2 = Ok r2 ->
  (Mpi.num_poor r2 <= Mpi.num_poor r1)%Z
  /\ Mpi.headcount_ratio r2 <= Mpi.headcount_ratio r1.
Proof.
  intros Hc H1 H2. destruct households as [|hh rest].
  - injection H1 as <-. injection H2 as <-. simpl. split; [lia | lra].
  - destruct (population_inv _ _ _ _ _ H1) as (l1 & F1 & N1 & _ & R1 & _).
    destruct (population_inv _ _ _ _ _ H2) as (l2 & F2 & N2 & _ & R2 & _).
    cbv zeta in N1, N2, R1, R2.
    pose proof (poor_under_lower_cutoff _ _ _ _ _ _ Hc F1 F2) as Hle.
    rewrite N1, N2, R1, R2. split; [lia|].
    set (t := inject_Z (Z.of_nat (List.length (hh :: rest)))).
    assert (Tpos : 0 < t) by (subst t; rewrite <- (Zlt_Qlt 0); simpl; lia).
    assert (NL : inject_Z (Z.of_nat (List.length (filter Mpi.sr_is_poor l2)))
                 <= inject_Z (Z.of_nat (List.length (filter Mpi.sr_is_poor l1))))
      by (rewrite <- Zle_Qle; lia).
    unfold Qdiv. apply Qmult_le_compat_r; [exact NL|].
    apply Qlt_le_weak, Qinv_lt_0_compat, Tpos.
Qed.

Lemma headcount_antitone_in_cutoff_witness :
  0.2 <= 0.33
  /\ exists r1 r2,
       Mpi.calculate_population_mpi [Examples.hh001; Examples.all_deprived]
         None (Some 0.2) = Ok r1
       /\ Mpi.calculate_population_mpi [Examples.hh001; Examples.all_deprived]
            None None = Ok r2
       /\ (Mpi.num_poor r2 <= Mpi.num_poor r1)%Z.
Proof.
  assert (Hc : 0.2 <= 0.33) by lra.
  split; [exact Hc|]. do 2 eexists.
  split; [reflexivity | split; [reflexivity|]].
  exact (proj1 (headcount_antitone_in_cutoff
                  [Examples.hh001; Examples.all_deprived] None (Some 0.2) None
                  _ _ Hc eq_refl eq_refl)).
Defined.

(** ** Comparison, continued *)

(** X12.  In a comparison, a household that is poor only under the adjusted
    table has a strictly positive score difference, one that is poor only
    under the standard table a strictly negative one; so an unchanged score
    never changes the classification. *)
Theorem classification_change_follows_score
    (hh : Mpi.HouseholdData) (adjusted_weights : Py.dict) (cmp : Mpi.Comparison) :
  Mpi.compare_standard_vs_adjusted hh adjusted_weights = Ok cmp ->
  let delta := Mpi.diff_deprivation_score (Mpi.difference cmp) in
  (Mpi.sr_is_poor (Mpi.standard cmp) = false ->
   Mpi.sr_is_poor (Mpi.adjusted cmp) = true -> 0 < delta)
  /\ (Mpi.sr_is_poor (Mpi.standard cmp) = true ->
      Mpi.sr_is_poor (Mpi.adjusted cmp) = false -> delta < 0)
  /\ (delta == 0 -> Mpi.classification_changed (Mpi.difference cmp) = false).
Proof.
  unfold Mpi.compare_standard_vs_adjusted.
  destruct (Mpi.calculate_household_mpi hh None None) as [a|] eqn:Ea; simpl;
    [|discriminate].
  destruct (Mpi.calculate_household_mpi hh (Some adjusted_weights) None)
    as [b|] eqn:Eb; simpl; [|discriminate].
  intro H; injection H as <-. simpl.
  destruct (std_household_inv _ _ _ _ Ea) as (_ & Pa & _).
  destruct (std_household_inv _ _ _ _ Eb) as (_ & Pb & _).
  unfold Mpi.is_poor, Mpi.POVERTY_CUTOFF in Pa, Pb.
  assert (A : Mpi.sr_is_poor a = true <-> 0.33 <= Mpi.sr_deprivation_score a)
    by (rewrite Pa; apply Qle_bool_iff).
  assert (B : Mpi.sr_is_poor b = true <-> 0.33 <= Mpi.sr_deprivation_score b)
    by (rewrite Pb; apply Qle_bool_iff).
  split; [|split].
  - intros Na Yb. apply B in Yb.
    assert (~ 0.33 <= Mpi.sr_deprivation_score a) by (rewrite <- A; congruence).
    lra.
  - intros Ya Nb. apply A in Ya.
    assert (~ 0.33 <= Mpi.sr_deprivation_score b) by (rewrite <- B; congruence).
    lra.
  - intro D.
    destruct (Mpi.sr_is_poor a) eqn:Qa, (Mpi.sr_is_poor b) eqn:Qb; simpl;
      try reflexivity; exfalso.
    + assert (0.33 <= Mpi.sr_deprivation_score a) by (apply A; reflexivity).
      assert (~ 0.33 <= Mpi.sr_deprivation_score b)
        by (rewrite <- B; congruence).
      lra.
    + assert (0.33 <= Mpi.sr_deprivation_score b) by (apply B; reflexivity).
      assert (~ 0.33 <= Mpi.sr_deprivation_score a)
        by (rewrite <- A; congruence).
      lra.
Qed.

Lemma classification_change_follows_score_witness :
  exists cmp,
    Mpi.compare_standard_vs_adjusted Examples.hh001 [("electricity", 1)] = Ok cmp
    /\ Mpi.sr_is_poor (Mpi.standard cmp) = false
    /\ Mpi.sr_is_poor (Mpi.adjusted cmp) = true
    /\ 0 < Mpi.diff_deprivation_score (Mpi.difference cmp).
Proof.
  eexists. split; [reflexivity|]. split; [reflexivity|]. split; [reflexivity|].
  exact (proj1 (classification_change_follows_score Examples.hh001
                  [("electricity", 1)] _ eq_refl) eq_refl eq_refl).
Defined.

(** ** Climate harshness and urbanization *)

Lemma np_clip_mono (x y : Q) : x <= y -> Py.np_clip x 0 1 <= Py.np_clip y 0 1.
Proof.
  intro H. unfold Py.np_clip.
  apply Q.min_le_compat_r, Q.max_le_compat_r, H.
Qed.

Lemma np_clip_zero_iff (x : Q) : Py.np_clip x 0 1 == 0 <-> x <= 0.
Proof.
  unfold Py.np_clip.
  destruct (Q.max_spec x 0) as [[H1 E1] | [H1 E1]];
    destruct (Q.min_spec (Qmax x 0) 1) as [[H2 E2] | [H2 E2]];
    rewrite E2; rewrite ?E1 in *; split; intro H; lra.
Qed.

Lemma harshness_raw (c : Cells.ClimateProfile) :
  Cells.climate_harshness c
  = Py.np_clip
      (0.5 * ((Qmax 0 (18 - Cells.temp_min c) + Qmax 0 (Cells.temp_max c - 24)) / 50)
       + 0.5 * ((Cells.heating_degree_days c + Cells.cooling_degree_days c) / 3000))
      0 1.
Proof. reflexivity. Qed.

Lemma harshness_raw_linear (a b d : Q) :
  0.5 * ((a + b) / 50) + 0.5 * (d / 3000) == 0.01 * (a + b) + (1 # 6000) * d.
Proof. field. Qed.

(** X13.  Climate harshness never decreases when the annual minimum
    temperature falls, the annual maximum rises, or the total of heating
    and cooling degree days grows; the other fields of the profile do not
    matter. *)
Theorem climate_harshness_monotone (c c' : Cells.ClimateProfile) :
  Cells.temp_min c' <= Cells.temp_min c ->
  Cells.temp_max c <= Cells.temp_max c' ->
  Cells.heating_degree_days c + Cells.cooling_degree_days c
  <= Cells.heating_degree_days c' + Cells.cooling_degree_days c' ->
  Cells.climate_harshness c <= Cells.climate_harshness c'.
Proof.
  intros Hmin Hmax Hdd. rewrite !harshness_raw. apply np_clip_mono.
  rewrite !harshness_raw_linear.
  assert (A : Qmax 0 (18 - Cells.temp_min c) <= Qmax 0 (18 - Cells.temp_min c'))
    by (apply Q.max_le_compat_l; lra).
  assert (B : Qmax 0 (Cells.temp_max c - 24) <= Qmax 0 (Cells.temp_max c' - 24))
    by (apply Q.max_le_compat_l; lra).
  lra.
Qed.

Lemma climate_harshness_monotone_witness :
  Cells.temp_min Examples.harsh_climate <= Cells.temp_min Examples.mild_climate
  /\ Cells.temp_max Examples.mild_climate <= Cells.temp_max Examples.harsh_climate
  /\ Cells.climate_harshness Examples.mild_climate
     <= Cells.climate_harshness Examples.harsh_climate.
Proof.
  assert (H1 : Cells.temp_min Examples.harsh_climate
               <= Cells.temp_min Examples.mild_climate)
    by (vm_compute; discriminate).
  assert (H2 : Cells.temp_max Examples.mild_climate
               <= Cells.temp_max Examples.harsh_climate)
    by (vm_compute; discriminate).
  split; [exact H1 | split; [exact H2|]].
  apply (climate_harshness_monotone Examples.mild_climate Examples.harsh_climate
           H1 H2).
  vm_compute; discriminate.
Defined.

(** X14.  For a profile whose degree days total is not negative: when the
    temperatures stay within the comfort band (minimum at least 18, maximum
    at most 24) and there are no degree days, climate harshness is 0; and
    when climate harshness is 0, the temperatures stay within the comfort
    band. *)
Theorem climate_harshness_zero_and_comfort (c : Cells.ClimateProfile) :
  0 <= Cells.heating_degree_days c + Cells.cooling_degree_days c ->
  (18 <= Cells.temp_min c /\ Cells.temp_max c <= 24
   /\ Cells.heating_degree_days c + Cells.cooling_degree_days c == 0 ->
   Cells.climate_harshness c == 0)
  /\ (Cells.climate_harshness c == 0 ->
      18 <= Cells.temp_min c /\ Cells.temp_max c <= 24).
Proof.
  intro Hdd. rewrite harshness_raw, np_clip_zero_iff, harshness_raw_linear.
  destruct (Q.max_spec 0 (18 - Cells.temp_min c)) as [[A1 A2] | [A1 A2]];
    destruct (Q.max_spec 0 (Cells.temp_max c - 24)) as [[B1 B2] | [B1 B2]];
    rewrite A2, B2; split; intro H; try lra;
    repeat split; lra.
Qed.

Lemma climate_harshness_zero_and_comfort_witness :
  0 <= 0 + 0
  /\ Cells.climate_harshness (Cells.mkClimateProfile 5 0 0 900 60 19 23) == 0.
Proof.
  assert (H : 0 <= 0 + 0) by lra.
  split; [exact H|].
  apply (proj1 (climate_harshness_zero_and_comfort
                  (Cells.mkClimateProfile 5 0 0 900 60 19 23) H)).
  simpl. lra.
Defined.

(** X15.  Whatever the decimal logarithm returns, the urbanization level
    lies between half the urban/rural index and half of it plus one half;
    so it lies in [0,1] whenever the urban/rural index does. *)
Theorem urbanization_level_bounds (log10 : Q -> Q) (x : Cells.ContextFactors) :
  0.5 * Cells.urban_rural_index x <= Cells.urbanization_level log10 x
  /\ Cells.urbanization_level log10 x <= 0.5 + 0.5 * Cells.urban_rural_index x
  /\ (unit_interval (Cells.urban_rural_index x) ->
      unit_interval (Cells.urbanization_level log10 x)).
Proof.
  unfold Cells.urbanization_level.
  destruct (np_clip_unit (log10 (Qmax 1 (Cells.population_density x)) / 4))
    as [D0 D1].
  split; [lra | split; [lra|]].
  intros [U0 U1]. unfold unit_interval. lra.
Qed.

(** ** Construction of a geographic cell *)

(** X16.  A geographic cell is constructed exactly when its latitude lies in
    [-90,90] and its longitude in [-180,180]; an invalid latitude is
    reported before the longitude is looked at. *)
Theorem cell_constructed_iff_coordinates_valid
    (cell_id : string) (lat lon : Q) (name : option string)
    (climate : option Cells.ClimateProfile) (context : option Cells.ContextFactors) :
  let new := Cells.new_GeographicCell cell_id lat lon name climate context in
  (new = Ok (Cells.mkGeographicCell cell_id lat lon name climate context)
   <-> (-90 <= lat <= 90) /\ (-180 <= lon <= 180))
  /\ (~ (-90 <= lat <= 90) -> new = Raise (InvalidLatitude lat))
  /\ (-90 <= lat <= 90 -> ~ (-180 <= lon <= 180) ->
      new = Raise (InvalidLongitude lon)).
Proof.
  unfold Cells.new_GeographicCell, Cells.post_init; simpl.
  destruct (Qle_bool (-90) lat) eqn:A; destruct (Qle_bool lat 90) eqn:B;
    destruct (Qle_bool (-180) lon) eqn:C; destruct (Qle_bool lon 180) eqn:D;
    simpl;
    repeat match goal with
           | H : Qle_bool _ _ = true |- _ => apply Qle_bool_iff in H
           | H : Qle_bool ?x ?y = false |- _ =>
               assert (~ x <= y)
                 by (intro X; apply Qle_bool_iff in X; congruence);
               clear H
           end;
    (split; [split; [intro E; first [discriminate E | tauto] | tauto]|]);
    (split; [intro N; first [reflexivity | exfalso; tauto]
            | intros Y N; first [reflexivity | exfalso; tauto]]).
Qed.

(** ** The climate-adjusted table, continued *)

Lemma div_items_eq (d : Py.dict) (t : Q) :
  ~ t == 0 ->
  Py.div_items d t = Ok (map (fun kv => (fst kv, snd kv / t)) d).
Proof.
  intro Ht. induction d as [|[k v] d IH]; simpl; [reflexivity|].
  rewrite (truediv_ok v t Ht); simpl. rewrite IH; reflexivity.
Qed.

Lemma div_items_exn (d : Py.dict) (t : Q) (e : exn) :
  Py.div_items d t = Raise e -> e = ZeroDivisionError.
Proof.
  induction d as [|[k v] d IH]; simpl; [discriminate|].
  unfold Py.truediv at 1. destruct (Qeq_bool t 0); simpl.
  - intro H; injection H as <-; reflexivity.
  - destruct (Py.div_items d t); simpl; [discriminate|].
    intro H; injection H as <-. apply IH; reflexivity.
Qed.


Lemma climate_weights_explicit (log10 : Q -> Q) (cell : Cells.GeographicCell)
    (c : Cells.ClimateProfile) :
  Cells.climate cell = Some c ->
  let h := Cells.climate_harshness c in
  let u := match Cells.context cell with
           | Some x => Cells.urbanization_level log10 x
           | None => 0.5
           end in
  0 <= u ->
  Cells.get_climate_weights log10 cell
  = Ok (map (fun kv => (fst kv, snd kv / Py.sum (Py.values (Cells.base_weights h u))))
          (Cells.base_weights h u)).
Proof.
  intros Hc h u Hu. unfold Cells.get_climate_weights. rewrite Hc.
  fold h. fold u. unfold Cells.normalize.
  apply div_items_eq, base_weights_sum_nonzero; [|exact Hu].
  apply (climate_harshness_unit c).
Qed.

Lemma share_bounds (v t : Q) : 0 < v -> v < t -> 0 < v / t < 1.
Proof.
  intros Hv Ht. split.
  - apply Qlt_shift_div_l; lra.
  - apply Qlt_shift_div_r; lra.
Qed.

Lemma normalized_base_shape (h u : Q) :
  0 <= h -> 0 <= u ->
  let w := map (fun kv => (fst kv, snd kv / Py.sum (Py.values (Cells.base_weights h u))))
             (Cells.base_weights h u) in
  Py.keys w = [ "electricity"; "cooking_fuel"; "sanitation"; "drinking_water";
                "flooring"; "nutrition"; "child_mortality"; "years_schooling";
                "school_attendance"; "assets" ]
  /\ Forall (fun kv => 0 < snd kv < 1) w
  /\ Py.sum (Py.values w) == 1.
Proof.
  intros Hh Hu w. subst w.
  pose proof (base_weights_sum h u) as HT.
  set (T := Py.sum (Py.values (Cells.base_weights h u))) in *.
  split; [reflexivity | split].
  - unfold Cells.base_weights; cbn [map fst snd].
    repeat (constructor; [cbn [snd]; apply share_bounds; lra|]).
    constructor.
  - assert (Hne : ~ T == 0) by lra.
    destruct (div_items_ok (Cells.base_weights h u) T Hne) as (d' & E & _ & S).
    rewrite (div_items_eq _ _ Hne) in E. injection E as <-.
    rewrite S. fold T. field. exact Hne.
Qed.

(** X17.  For a cell with a climate profile and a non-negative
    urbanization, the climate-adjusted table holds exactly the ten core
    indicators, each once, and every weight lies strictly between 0 and 1;
    the table can therefore be used wherever the standard table is. *)
Theorem climate_weights_positive_and_complete
    (log10 : Q -> Q) (cell : Cells.GeographicCell) (c : Cells.ClimateProfile) :
  Cells.climate cell = Some c ->
  0 <= match Cells.context cell with
       | Some x => Cells.urbanization_level log10 x
       | None => 0.5
       end ->
  exists w, Cells.get_climate_weights log10 cell = Ok w
    /\ Py.keys w = [ "electricity"; "cooking_fuel"; "sanitation";
                     "drinking_water"; "flooring"; "nutrition";
                     "child_mortality"; "years_schooling";
                     "school_attendance"; "assets" ]
    /\ over_indicators w = true
    /\ has_keys INDICATORS w = true
    /\ Forall (fun kv => 0 < snd kv < 1) w.
Proof.
  intros Hc Hu.
  pose proof (climate_weights_explicit log10 cell c Hc Hu) as E.
  destruct (climate_harshness_unit c) as [Hh _].
  destruct (normalized_base_shape _ _ Hh Hu) as (K & P & _).
  eexists. split; [exact E|]. split; [exact K|].
  unfold over_indicators, has_keys. rewrite K.
  split; [reflexivity | split; [reflexivity | exact P]].
Qed.

Lemma climate_weights_positive_and_complete_witness :
  Cells.climate Examples.cell_without_context = Some Examples.harsh_climate
  /\ 0 <= 0.5
  /\ exists w,
       Cells.get_climate_weights Examples.log10_approx Examples.cell_without_context
       = Ok w
       /\ Forall (fun kv => 0 < snd kv < 1) w.
Proof.
  assert (Hu : 0 <= 0.5) by lra.
  split; [reflexivity | split; [exact Hu|]].
  destruct (climate_weights_positive_and_complete Examples.log10_approx
              Examples.cell_without_context Examples.harsh_climate eq_refl Hu)
    as (w & E & _ & _ & _ & P).
  exists w. split; assumption.
Defined.

(** X18.  The climate-adjusted policy raises the missing-climate error
    exactly when the cell has no climate profile, and the only other error
    it can raise is a division by zero; with a climate profile and a
    non-negative urbanization it raises nothing. *)
Theorem climate_weights_errors (log10 : Q -> Q) (cell : Cells.GeographicCell) :
  (Cells.climate cell = None
   <-> Cells.get_climate_weights log10 cell = Raise ClimateRequired)
  /\ (forall e, Cells.get_climate_weights log10 cell = Raise e ->
        e = ClimateRequired \/ e = ZeroDivisionError)
  /\ (Cells.climate cell <> None ->
      0 <= match Cells.context cell with
           | Some x => Cells.urbanization_level log10 x
           | None => 0.5
           end ->
      exists w, Cells.get_climate_weights log10 cell = Ok w).
Proof.
  assert (N : Cells.climate cell = None ->
              Cells.get_climate_weights log10 cell = Raise ClimateRequired)
    by (intro Hc; unfold Cells.get_climate_weights; rewrite Hc; reflexivity).
  assert (S : forall c e, Cells.climate cell = Some c ->
                Cells.get_climate_weights log10 cell = Raise e ->
                e = ZeroDivisionError).
  { intros c e Hc. unfold Cells.get_climate_weights, Cells.normalize.
    rewrite Hc. apply div_items_exn. }
  split; [split; [exact N|] | split].
  - intro H. destruct (Cells.climate cell) as [c|] eqn:Hc; [|reflexivity].
    pose proof (S c _ eq_refl H) as X. discriminate X.
  - intros e H. destruct (Cells.climate cell) as [c|] eqn:Hc.
    + right. exact (S c e eq_refl H).
    + left. rewrite (N eq_refl) in H. injection H as <-. reflexivity.
  - intros Hne Hu. destruct (Cells.climate cell) as [c|] eqn:Hc; [|congruence].
    eexists. apply (climate_weights_explicit log10 cell c Hc Hu).
Qed.

(** ** The callers in [app.py] *)




Lemma getitems_length (d : Py.dict) (ks : list string) (vs : list Q) :
  Callers.getitems d ks = Ok vs -> List.length vs = List.length ks.
Proof.
  revert vs; induction ks as [|k ks IH]; intros vs; simpl.
  - intro H; injection H as <-; reflexivity.
  - destruct (Py.getitem d k); simpl; [|discriminate].
    destruct (Callers.getitems d ks); simpl; [|discriminate].
    intro H; injection H as <-. simpl. f_equal. apply IH; reflexivity.
Qed.

Lemma getitems_total (d : Py.dict) (ks : list string) :
  has_keys ks d = true ->
  exists vs, Callers.getitems d ks = Ok vs
    /\ Forall (fun v => In v (Py.values d)) vs.
Proof.
  intro H. induction ks as [|k ks IH]; simpl.
  - exists []. split; [reflexivity | constructor].
  - unfold has_keys in H; simpl in H.
    apply andb_true_iff in H; destruct H as [Hk Hks].
    destruct (getitem_present d k Hk) as (v & G). rewrite G; simpl.
    destruct (IH Hks) as (vs & -> & F); simpl.
    exists (v :: vs). split; [reflexivity|].
    constructor; [|exact F].
    apply getitem_in in G. apply (in_map snd) in G. exact G.
Qed.

(** X21.  The weight table of the dashboard's cell view never meets a
    missing key: for a cell with a climate profile and a non-negative
    urbanization, looking up every key of the standard table in the
    climate-adjusted table yields ten weights, each strictly between 0
    and 1. *)
Theorem adjusted_column_complete
    (log10 : Q -> Q) (cell : Cells.GeographicCell) (c : Cells.ClimateProfile) :
  Cells.climate cell = Some c ->
  0 <= match Cells.context cell with
       | Some x => Cells.urbanization_level log10 x
       | None => 0.5
       end ->
  exists col, Callers.adjusted_column log10 cell = Ok col
    /\ List.length col = 10%nat
    /\ Forall (fun v => 0 < v < 1) col.
Proof.
  intros Hc Hu.
  pose proof (climate_weights_explicit log10 cell c Hc Hu) as E.
  destruct (climate_harshness_unit c) as [Hh _].
  destruct (normalized_base_shape _ _ Hh Hu) as (K & P & _).
  cbv zeta in E, K, P.
  set (w := map _ _) in *.
  assert (Hk : has_keys (Py.keys Mpi.STANDARD_WEIGHTS) w = true)
    by (unfold has_keys; rewrite K; reflexivity).
  destruct (getitems_total w _ Hk) as (col & G & F).
  unfold Callers.adjusted_column. rewrite E. cbv beta iota delta [Py.bind].
  exists col. split; [exact G | split].
  - apply getitems_length in G. exact G.
  - rewrite Forall_forall in F, P |- *. intros v Hv.
    specialize (F v Hv). unfold Py.values in F. apply in_map_iff in F.
    destruct F as (kv & <- & Hin). apply P, Hin.
Qed.

Lemma adjusted_column_complete_witness :
  Cells.climate Examples.harsh_cell = Some Examples.harsh_climate
  /\ 0 <= Cells.urbanization_level Examples.log10_approx Examples.urban_context
  /\ exists col,
       Callers.adjusted_column Examples.log10_approx Examples.harsh_cell = Ok col
       /\ List.length col = 10%nat.
Proof.
  assert (Hu : 0 <= Cells.urbanization_level Examples.log10_approx
                      Examples.urban_context)
    by (vm_compute; discriminate).
  split; [reflexivity | split; [exact Hu|]].
  destruct (adjusted_column_complete Examples.log10_approx Examples.harsh_cell
              Examples.harsh_climate eq_refl Hu) as (col & E & L & _).
  exists col. split; assumption.
Defined.


(** ** Composite dimensions of the enhanced vector *)

Lemma valid_enhanced_components (d : EnhancedMpi.EnhancedDeprivationScore) :
  valid_enhanced d ->
  Forall unit_interval (top_level_scalars d)
  /\ (unit_interval (EnhancedMpi.structure_quality (EnhancedMpi.housing d))
      /\ unit_interval (EnhancedMpi.tenure_security (EnhancedMpi.housing d))
      /\ unit_interval (EnhancedMpi.cost_burden (EnhancedMpi.housing d)))
  /\ (unit_interval (EnhancedMpi.no_internet_access (EnhancedMpi.digital d))
      /\ unit_interval (EnhancedMpi.no_device (EnhancedMpi.digital d))
      /\ unit_interval (EnhancedMpi.digital_illiteracy (EnhancedMpi.digital d)))
  /\ (unit_interval (EnhancedMpi.excessive_commute_time (EnhancedMpi.transport d))
      /\ unit_interval
           (EnhancedMpi.transport_cost_burden_dep (EnhancedMpi.transport d))
      /\ unit_interval (EnhancedMpi.no_transport_access (EnhancedMpi.transport d)))
  /\ (unit_interval
        (EnhancedMpi.income_volatility (EnhancedMpi.economic_security d))
      /\ unit_interval
           (EnhancedMpi.no_emergency_savings (EnhancedMpi.economic_security d))
      /\ unit_interval
           (EnhancedMpi.no_social_protection (EnhancedMpi.economic_security d))
      /\ unit_interval
           (EnhancedMpi.high_debt_burden (EnhancedMpi.economic_security d)))
  /\ (unit_interval (EnhancedMpi.poor_air_quality (EnhancedMpi.environment d))
      /\ unit_interval (EnhancedMpi.flood_risk (EnhancedMpi.environment d))
      /\ unit_interval (EnhancedMpi.heat_exposure (EnhancedMpi.environment d))
      /\ unit_interval (EnhancedMpi.toxic_proximity (EnhancedMpi.environment d))).
Proof.
  unfold valid_enhanced, top_level_scalars, scalar_components.
  intro H. cbn [firstn].
  repeat match goal with
         | H : Forall _ (_ :: _) |- _ =>
             let a := fresh "U" in
             let b := fresh "F" in
             inversion H as [|? ? a b]; subst; clear H
         end.
  split; [repeat (constructor; [assumption|]); constructor|].
  unfold unit_interval in *. repeat split; lra.
Qed.

Lemma mean3_unit (a b c : Q) :
  unit_interval a -> unit_interval b -> unit_interval c ->
  unit_interval ((a + b + c) / 3).
Proof.
  intros [A0 A1] [B0 B1] [C0 C1]. split.
  - apply Qle_shift_div_l; lra.
  - apply Qle_shift_div_r; lra.
Qed.

Lemma mean4_unit (a b c d : Q) :
  unit_interval a -> unit_interval b -> unit_interval c -> unit_interval d ->
  unit_interval ((a + b + c + d) / 4).
Proof.
  intros [A0 A1] [B0 B1] [C0 C1] [D0 D1]. split.
  - apply Qle_shift_div_l; lra.
  - apply Qle_shift_div_r; lra.
Qed.

Lemma composite_scores_unit (d : EnhancedMpi.EnhancedDeprivationScore) :
  valid_enhanced d ->
  unit_interval (EnhancedMpi.housing_composite_score (EnhancedMpi.housing d))
  /\ unit_interval (EnhancedMpi.digital_composite_score (EnhancedMpi.digital d))
  /\ unit_interval
       (EnhancedMpi.transport_composite_score (EnhancedMpi.transport d))
  /\ unit_interval
       (EnhancedMpi.economic_composite_score (EnhancedMpi.economic_security d))
  /\ unit_interval
       (EnhancedMpi.environment_composite_score (EnhancedMpi.environment d)).
Proof.
  intro H. destruct (valid_enhanced_components d H)
    as (_ & (H1 & H2 & H3) & (G1 & G2 & G3) & (T1 & T2 & T3)
        & (E1 & E2 & E3 & E4) & (V1 & V2 & V3 & V4)).
  split; [|split; [|split; [|split]]].
  - unfold EnhancedMpi.housing_composite_score, unit_interval in *. lra.
  - apply mean3_unit; assumption.
  - unfold EnhancedMpi.transport_composite_score, unit_interval in *. lra.
  - apply mean4_unit; assumption.
  - unfold EnhancedMpi.environment_composite_score, unit_interval in *. lra.
Qed.

(** X22.  When every component of the five sub-vectors lies in [0,1], each
    composite score (housing, digital, transport, economic security,
    environment) lies in [0,1] as well. *)
Theorem composite_scores_in_unit_interval
    (d : EnhancedMpi.EnhancedDeprivationScore) :
  valid_enhanced d ->
  Forall (fun kv => unit_interval (snd kv)) (dimension_scores d).
Proof.
  intro H.
  destruct (composite_scores_unit d H) as (C1 & C2 & C3 & C4 & C5).
  destruct (valid_enhanced_components d H) as (T & _).
  unfold top_level_scalars, scalar_components in T. cbn [firstn] in T.
  repeat match goal with
         | H : Forall _ (_ :: _) |- _ =>
             let a := fresh "U" in
             let b := fresh "F" in
             inversion H as [|? ? a b]; subst; clear H
         end.
  unfold dimension_scores.
  repeat (constructor; [cbn [snd]; assumption|]). constructor.
Qed.

Lemma composite_scores_in_unit_interval_witness :
  valid_enhanced (EnhancedMpi.deprivations Examples.renter_high_cost)
  /\ Forall (fun kv => unit_interval (snd kv))
       (dimension_scores (EnhancedMpi.deprivations Examples.renter_high_cost)).
Proof.
  assert (H : valid_enhanced (EnhancedMpi.deprivations Examples.renter_high_cost))
    by (repeat (constructor; [split; vm_compute; discriminate|]); constructor).
  split; [exact H|].
  exact (composite_scores_in_unit_interval _ H).
Defined.


(** ** The enhanced score *)














(** ** The enhanced tables and the scenario loop of [test_enhanced_mpi.py] *)




Lemma context_weights_explicit (h u : Q) (sprawl digital rental : option Q) :
  0 <= h -> 0 <= u ->
  0 <= EnhancedMpi.default_half sprawl -> 0 <= EnhancedMpi.default_half digital ->
  let table := enhanced_adjusted_table h u (EnhancedMpi.default_half sprawl)
                 (EnhancedMpi.default_half digital) in
  EnhancedMpi.get_context_adjusted_weights h u sprawl digital rental
  = Ok (map (fun kv => (fst kv, snd kv / Py.sum (Py.values table))) table)
  /\ 0 < Py.sum (Py.values table).
Proof.
  intros Hh Hu Hs Hd table.
  assert (T : 0 < Py.sum (Py.values table))
    by (subst table; rewrite enhanced_adjusted_sum; lra).
  split; [|exact T].
  rewrite context_adjusted_weights_unfold. unfold Cells.normalize. fold table.
  apply div_items_eq. lra.
Qed.






(** X26.  For harshness and urbanization in [0,1] and optional sprawl and
    digital-intensity scalars that are absent or in [0,1], the enhanced
    policy returns a table with exactly the fourteen enhanced keys, every
    weight strictly between 0 and 1; the rental-tightness argument has no
    effect on it. *)
Theorem context_weights_shape
    (h u : Q) (sprawl digital rental rental' : option Q) :
  unit_interval h -> unit_interval u ->
  opt_unit_interval sprawl -> opt_unit_interval digital ->
  exists w,
    EnhancedMpi.get_context_adjusted_weights h u sprawl digital rental = Ok w
    /\ EnhancedMpi.get_context_adjusted_weights h u sprawl digital rental' = Ok w
    /\ Py.keys w = ENHANCED_KEYS
    /\ Forall (fun kv => 0 < snd kv < 1) w.
Proof.
  intros [Hh _] [Hu _] Hs Hd.
  apply default_half_unit in Hs. apply default_half_unit in Hd.
  destruct Hs as [Hs _]. destruct Hd as [Hd _].
  destruct (context_weights_explicit h u sprawl digital rental Hh Hu Hs Hd)
    as (E & T).
  destruct (context_weights_explicit h u sprawl digital rental' Hh Hu Hs Hd)
    as (E' & _).
  cbv zeta in E, E', T.
  set (s := EnhancedMpi.default_half sprawl) in *.
  set (d := EnhancedMpi.default_half digital) in *.
  pose proof (enhanced_adjusted_sum h u s d) as HT.
  set (T0 := Py.sum (Py.values (enhanced_adjusted_table h u s d))) in *.
  eexists. split; [exact E | split; [exact E' | split; [reflexivity|]]].
  unfold enhanced_adjusted_table; cbn [map fst snd].
  repeat (constructor; [cbn [snd]; apply share_bounds; lra|]).
  constructor.
Qed.

Lemma context_weights_shape_witness :
  unit_interval 1 /\ unit_interval 0
  /\ opt_unit_interval None /\ opt_unit_interval (Some 0.6)
  /\ exists w,
       EnhancedMpi.get_context_adjusted_weights 1 0 None (Some 0.6) None = Ok w
       /\ EnhancedMpi.get_context_adjusted_weights 1 0 None (Some 0.6) (Some 0.9)
          = Ok w
       /\ Py.keys w = ENHANCED_KEYS.
Proof.
  assert (H1 : unit_interval 1) by (unfold unit_interval; lra).
  assert (H0 : unit_interval 0) by (unfold unit_interval; lra).
  assert (H6 : opt_unit_interval (Some 0.6)) by (simpl; unfold unit_interval; lra).
  split; [exact H1 | split; [exact H0 | split; [exact I | split; [exact H6|]]]].
  destruct (context_weights_shape 1 0 None (Some 0.6) None (Some 0.9) H1 H0 I H6)
    as (w & E & E' & K & _).
  exists w. repeat split; assumption.
Defined.

(** ** Back to the standard vector *)

Lemma standard_deprivations_unfold (e : EnhancedMpi.EnhancedDeprivationScore) :
  Callers.standard_deprivations e
  = Mpi.new_DeprivationScore
      (EnhancedMpi.nutrition e) (EnhancedMpi.child_mortality e)
      (EnhancedMpi.years_schooling e) (EnhancedMpi.school_attendance e)
      (EnhancedMpi.electricity e) (EnhancedMpi.sanitation e)
      (EnhancedMpi.drinking_water e)
      (EnhancedMpi.structure_quality (EnhancedMpi.housing e))
      (EnhancedMpi.cooking_fuel e) (EnhancedMpi.assets e).
Proof. reflexivity. Qed.

(** X29.  Converting an enhanced vector whose nine top-level indicators lie
    in [0,1] to a standard vector succeeds exactly when the structure
    quality of its housing sub-vector lies in [0,1]; the standard vector
    then has the entries of the compatibility dictionary, structure quality
    standing for flooring; otherwise the conversion fails with a range
    violation on the field flooring. *)
Theorem standard_conversion
    (e : EnhancedMpi.EnhancedDeprivationScore) :
  Forall unit_interval (top_level_scalars e) ->
  (unit_interval (EnhancedMpi.structure_quality (EnhancedMpi.housing e)) ->
   exists d, Callers.standard_deprivations e = Ok d
     /\ Mpi.dict_items d = EnhancedMpi.to_standard_mpi_compatible e)
  /\ (~ unit_interval (EnhancedMpi.structure_quality (EnhancedMpi.housing e)) ->
      Callers.standard_deprivations e
      = Raise (RangeViolation "flooring"
                 (EnhancedMpi.structure_quality (EnhancedMpi.housing e)))).
Proof.
  intro T. rewrite standard_deprivations_unfold.
  unfold top_level_scalars, scalar_components in T. cbn [firstn] in T.
  repeat match goal with
         | H : Forall unit_interval (_ :: _) |- _ =>
             let a := fresh "U" in
             let b := fresh "F" in
             inversion H as [|? ? a b]; subst; clear H
         end.
  repeat match goal with
         | H : unit_interval _ |- _ => apply in_unit_spec in H
         end.
  unfold Mpi.new_DeprivationScore, Mpi.post_init, Mpi.dict_items.
  cbn [Mpi.nutrition Mpi.child_mortality Mpi.years_schooling
       Mpi.school_attendance Mpi.electricity Mpi.sanitation Mpi.drinking_water
       Mpi.flooring Mpi.cooking_fuel Mpi.assets Mpi.validate].
  repeat match goal with
         | H : Py.in_unit ?x = true |- _ => rewrite H; clear H
         end.
  cbn [negb]. split.
  - intro S. apply in_unit_spec in S. rewrite S. cbn [negb Py.bind].
    eexists. split; reflexivity.
  - intro S. apply in_unit_false in S. rewrite S. reflexivity.
Qed.

Lemma standard_conversion_witness :
  Forall unit_interval
    (top_level_scalars (EnhancedMpi.deprivations Examples.renter_high_cost))
  /\ exists d,
       Callers.standard_deprivations
         (EnhancedMpi.deprivations Examples.renter_high_cost) = Ok d
       /\ Mpi.flooring d = 0.2.
Proof.
  assert (T : Forall unit_interval
                (top_level_scalars (EnhancedMpi.deprivations Examples.renter_high_cost)))
    by (repeat (constructor; [split; vm_compute; discriminate|]); constructor).
  split; [exact T|].
  destruct (proj1 (standard_conversion
                     (EnhancedMpi.deprivations Examples.renter_high_cost) T))
    as (d & E & _).
  - split; vm_compute; discriminate.
  - exists d. split; [exact E|].
    rewrite standard_deprivations_unfold in E.
    unfold Mpi.new_DeprivationScore in E. simpl in E. injection E as <-.
    reflexivity.
Defined.

(** ** Cost burdens, continued *)

Lemma cost_burden_of_some (income cost : option Q) (q : Q) :
  EnhancedMpi.cost_burden_of income cost = Ok (Some q) ->
  exists i c, income = Some i /\ cost = Some c /\ 0 < i /\ ~ c == 0
              /\ q = c / i.
Proof.
  unfold EnhancedMpi.cost_burden_of.
  destruct income as [i|]; [|discriminate].
  destruct (Py.truthy i) eqn:Ti; [|discriminate].
  destruct cost as [c|]; [|discriminate].
  destruct (Py.truthy c) eqn:Tc; [|discriminate].
  destruct (Py.gt i 0) eqn:Gi; [|discriminate].
  unfold Py.truthy in Ti, Tc. apply negb_true_iff, Qeq_bool_neq in Ti, Tc.
  rewrite (truediv_ok c i Ti). simpl. intro H; injection H as <-.
  exists i, c. repeat split; try assumption.
  unfold Py.gt in Gi. apply negb_true_iff in Gi.
  apply Qnot_le_lt. intro Hle. apply Qle_bool_iff in Hle. congruence.
Qed.

Lemma ratio_sign (c i : Q) :
  0 < i -> (0 < c / i -> 0 < c) /\ (c / i < 0 -> c < 0).
Proof.
  intro Hi.
  assert (E : c == (c / i) * i) by (field; lra).
  split; intro H; rewrite E; nra.
Qed.

(** X30.  Whenever a cost-burden property returns a ratio, the monthly
    income is present and strictly positive, the cost is present and not
    zero, and the ratio is cost divided by income; a positive ratio comes
    from a positive cost and a negative ratio from a negative cost. *)
Theorem cost_burden_has_sign_of_cost (hh : EnhancedMpi.EnhancedHouseholdData) :
  (forall q, EnhancedMpi.housing_cost_burden hh = Ok (Some q) ->
     exists i c, EnhancedMpi.monthly_income hh = Some i
       /\ EnhancedMpi.monthly_housing_cost hh = Some c
       /\ 0 < i /\ ~ c == 0 /\ q = c / i
       /\ (0 < q -> 0 < c) /\ (q < 0 -> c < 0))
  /\ (forall q, EnhancedMpi.transport_cost_burden hh = Ok (Some q) ->
        exists i c, EnhancedMpi.monthly_income hh = Some i
          /\ EnhancedMpi.monthly_transport_cost hh = Some c
          /\ 0 < i /\ ~ c == 0 /\ q = c / i
          /\ (0 < q -> 0 < c) /\ (q < 0 -> c < 0)).
Proof.
  split; intros q H;
    destruct (cost_burden_of_some _ _ _ H) as (i & c & Ei & Ec & Hi & Hc & ->);
    destruct (ratio_sign c i Hi) as [P N];
    exists i, c; repeat split; assumption.
Qed.
